(** * foodix: the forecast-to-decision pipeline

    A shallow embedding of the serving code of the repository:

    - [ml/archive/ml_endpoints.py]   (module [Ensemble]): the stacked-ensemble
      forecast, the prediction endpoint and the optimization endpoint;
    - [ml/ml_simple.py]              (module [Simple]): the XGBoost-only
      prediction endpoint with its feature preparation;
    - [ml/src/data_processing/database_loader.py] (module [Loader]): the
      numeric part of [_add_derived_features].

    Conventions of the embedding.

    - Python floats are read as exact rationals ([Q]); comparisons are the
      boolean comparisons of [Q].  Rounding, infinities and NaN are outside
      the model.
    - A calendar date is its day number ([Z], as [date.toordinal()]); a date
      string in the fixed format [%Y-%m-%d] is identified with the date it
      denotes, so [strftime]/[strptime] disappear and comparing two date
      strings is comparing two day numbers.  [today] stands for
      [datetime.now().date()], read once per request.
    - Raising is explicit: a computation that may raise has type [result A].
      [try: ... except Exception as e: ...] is [try_except].
    - The trained models, the database access and [numpy.expm1] are
      parameters.
    - The pydantic classes are the records the code builds and reads; the
      run-time validation pydantic performs on construction is not part of
      the embedding. *)

From Stdlib Require Import QArith Qround Lqa.
From stdpp Require Import base option list strings gmap.

Local Open Scope Z_scope.

(** ** Exceptions and results *)

(** [HTTPException(status_code, detail)] and the other exceptions the code can
    meet.  A detail built by an f-string around [str(e)] keeps the exception
    it quotes. *)
Inductive Exception : Type :=
| HTTPException (status_code : Z) (detail : Detail)
| ZeroDivisionError
| PythonError (msg : string)
with Detail : Type :=
| Text (s : string)
| FString (prefix : string) (cause : Exception).

Inductive result (A : Type) : Type :=
| Ok (a : A)
| Raise (e : Exception).
Arguments Ok {A} a.
Arguments Raise {A} e.

#[global] Instance result_ret : MRet result := fun _ a => Ok a.
#[global] Instance result_bind : MBind result := fun _ _ f m =>
  match m with
  | Ok a => f a
  | Raise e => Raise e
  end.

(** [try: body / except Exception as e: handler e] *)
Definition try_except {A} (body : result A) (handler : Exception → result A)
  : result A :=
  match body with
  | Ok a => Ok a
  | Raise e => handler e
  end.

Definition status_of {A} (r : result A) : option Z :=
  match r with
  | Raise (HTTPException s _) => Some s
  | _ => None
  end.

(** ** Numbers *)

Definition Qltb (x y : Q) : bool := negb (Qle_bool y x).

(** [sum(l)]: a left fold from 0. *)
Definition py_sum (l : list Q) : Q := fold_left Qplus l 0%Q.

(** [np.mean(l)] on a non-empty sequence. *)
Definition np_mean (l : list Q) : Q :=
  (py_sum l / inject_Z (Z.of_nat (length l)))%Q.

(** [max(0, x)]: Python keeps the first argument unless the second is
    strictly greater. *)
Definition py_max0 (x : Q) : Q := if Qltb 0 x then x else 0%Q.

(** [np.maximum(x, 0)] *)
Definition np_maximum0 (x : Q) : Q := if Qle_bool 0 x then x else 0%Q.

(** [a / b] on numbers, raising on a zero divisor. *)
Definition py_truediv (a b : Q) : result Q :=
  if Qeq_bool b 0 then Raise ZeroDivisionError else Ok (a / b)%Q.

(** [int(x)]: truncation towards zero. *)
Definition py_int (x : Q) : Z := Z.quot (Qnum x) (Z.pos (Qden x)).

(** [np.argmax(l)]: index of the first maximum. *)
Fixpoint argmax_from (best : Q) (besti i : nat) (l : list Q) : nat :=
  match l with
  | [] => besti
  | x :: rest =>
      if Qltb best x then argmax_from x i (S i) rest
      else argmax_from best besti (S i) rest
  end.
Definition np_argmax (l : list Q) : nat :=
  match l with
  | [] => 0%nat
  | x :: rest => argmax_from x 0 1 rest
  end.

(** ** Lists the way the code uses them *)

(** [l[-n:]], [df.tail(n)] *)
Definition tail_n {A} (n : nat) (l : list A) : list A :=
  drop (length l - n) l.

(** [l.insert(i, x)] for [0 <= i] *)
Definition py_insert {A} (i : nat) (x : A) (l : list A) : list A :=
  take i l ++ x :: drop i l.

(** [enumerate(l)] *)
Definition enumerate {A} (l : list A) : list (nat * A) :=
  imap (fun i x => (i, x)) l.

(** A stable sort on a day-number key: [list.sort(key=...)].  [x] comes
    from before the already sorted [l], so it stays in front of equal keys. *)
Fixpoint insert_by {A} (key : A → Z) (x : A) (l : list A) : list A :=
  match l with
  | [] => [x]
  | y :: rest =>
      if key x <=? key y then x :: y :: rest else y :: insert_by key x rest
  end.
Definition sort_by {A} (key : A → Z) (l : list A) : list A :=
  foldr (insert_by key) [] l.

(** [l] is in ascending order of [key]. *)
Fixpoint ascending {A} (key : A → Z) (l : list A) : Prop :=
  match l with
  | [] => True
  | x :: rest => Forall (fun y => key x <= key y) rest ∧ ascending key rest
  end.

(** ** [ml/archive/ml_endpoints.py] *)

Module Ensemble.

Record InventoryPredictionRequest : Type := {
  req_sku_id : string;
  lookahead_days : Z;                  (* Field(7, ge=1, le=90) *)
  req_current_stock : option Q
}.

(** The bounds declared on [lookahead_days]. *)
Definition valid_lookahead (h : Z) : Prop := 1 <= h <= 90.

Record OptimizationRequest : Type := {
  current_stock : Q;
  perish_date : option Z;              (* Optional "YYYY-MM-DD" *)
  safety_buffer_days : Z               (* default 3 *)
}.

Record PredictionDataPoint : Type := {
  date : Z;
  actual : option Q;
  predicted : option Q;
  confidence_low : option Q;
  confidence_high : option Q
}.

Record Summary : Type := {
  total_predicted_consumption : Q;
  avg_daily_consumption : Q;
  peak_consumption_day : Z;
  forecast_horizon_days : Z;
  historical_avg : Q
}.

Record InventoryPredictionResponse : Type := {
  resp_sku_id : string;
  predictions : list PredictionDataPoint;
  summary : Summary
}.

Record Details : Type := {
  det_current_stock : Q;
  predicted_30_day_consumption : Q;
  det_avg_daily_consumption : Q;
  det_days_until_runout : option Z;
  stock_coverage_days : Z;
  det_perish_date : option Z;
  det_safety_buffer_days : Z
}.

Record OptimizationResponse : Type := {
  opt_sku_id : string;
  runout_date : option Z;
  waste_risk : bool;
  suggested_action : string;
  details : Details
}.

(** One row of the history frame, as far as this file reads it. *)
Record HistoryRow : Type := {
  row_date : Z;
  qty_consumed : Q
}.

(** *** The ensemble forecast *)

(** [np.column_stack([a, b])] of two flat arrays *)
Definition column_stack (a b : list Q) : result (list (Q * Q)) :=
  if decide (length a = length b) then Ok (zip a b)
  else Raise (PythonError "all the input array dimensions must match").

(** [current_pred = final_pred[0] if len(final_pred) > 0 else 0] *)
Definition point_estimate (final_pred : list Q) : Q :=
  match final_pred with x :: _ => x | [] => 0%Q end.

(** "Generate forecast sequence": the loop of [predict_with_ensemble] over
    [range(forecast_days)], from the output of the meta-model. *)
Definition forecast_sequence (final_pred : list Q) (forecast_days : nat)
  : list Q :=
  let current_pred := point_estimate final_pred in
  map (fun i : nat =>
         let decay_factor := (1 - inject_Z (Z.of_nat i) * (2 # 100))%Q in
         py_max0 (current_pred * decay_factor)%Q)
      (seq 0 forecast_days).

(** *** The optimization advisor *)

Definition _generate_action_suggestion (days_until_runout : option Z)
    (waste_risk : bool) (current_stock avg_daily_consumption : Q)
    (safety_buffer : Z) : string :=
  if waste_risk then "Run a special - high waste risk detected before expiry"
  else match days_until_runout with
       | None => "Stock appears sufficient - monitor regularly"
       | Some days_until_runout =>
           if days_until_runout <=? safety_buffer
           then "Reorder now - critical stock level"
           else if days_until_runout <=? safety_buffer + 3
           then "Reorder soon - approaching reorder point"
           else if 30 <=? days_until_runout
           then "Increase safety buffer - excess inventory detected"
           else "Monitor closely - stock levels normal"
       end.

(** The date of the [i]-th forecast point: [base_date + timedelta(days=i+1)]. *)
Definition forecast_date (today : Z) (i : nat) : Z := today + (Z.of_nat i + 1).

(** "Calculate runout date": the loop over [enumerate(predictions)], entered
    at index [i] with the consumption accumulated so far; it stops at the
    first index where the running total has reached the stock. *)
Fixpoint runout_loop (today : Z) (current_stock cumulative_consumption : Q)
    (i : nat) (predictions : list Q) : option Z :=
  match predictions with
  | [] => None
  | daily_consumption :: rest =>
      let cumulative_consumption :=
        (cumulative_consumption + daily_consumption)%Q in
      if Qle_bool current_stock cumulative_consumption
      then Some (forecast_date today i)
      else runout_loop today current_stock cumulative_consumption (S i) rest
  end.

Definition calculate_runout_date (today : Z) (current_stock : Q)
    (predictions : list Q) : option Z :=
  runout_loop today current_stock 0%Q 0 predictions.

(** "Calculate waste risk" *)
Definition calculate_waste_risk (today : Z) (current_stock : Q)
    (perish_date : option Z) (predictions : list Q) : bool :=
  match perish_date with
  | Some perish_datetime =>
      let days_to_perish := perish_datetime - today in
      if 0 <? days_to_perish
      then
        let consumption_until_perish :=
          py_sum (take (Z.to_nat days_to_perish) predictions) in
        Qltb consumption_until_perish current_stock
      else false
  | None => false
  end.

(** [days_until_runout], read back from the runout date *)
Definition calculate_days_until_runout (today : Z) (runout_date : option Z)
  : option Z :=
  match runout_date with
  | Some runout_datetime => Some (runout_datetime - today)
  | None => None
  end.

(** The [stock_coverage_days] entry of the details; the same expression is
    in [ml/archive/ml_endpoints_simple.py]. *)
Definition calculate_stock_coverage_days (current_stock : Q)
    (predictions : list Q) : result Z :=
  if Qltb 0 (np_mean predictions)
  then q ← py_truediv current_stock (np_mean predictions); mret (py_int q)
  else mret 999.

(** The body of [get_optimization_analytics] once the forecast values have
    been read from the prediction response. *)
Definition optimization_analysis (today : Z) (sku_id : string)
    (optimization : OptimizationRequest) (predictions : list Q)
  : result OptimizationResponse :=
  match predictions with
  | [] => Raise (HTTPException 404 (Text "No predictions available"))
  | _ :: _ =>
      let current_stock := current_stock optimization in
      let runout_date := calculate_runout_date today current_stock predictions in
      let total_predicted_consumption := py_sum predictions in
      let waste_risk :=
        calculate_waste_risk today current_stock (perish_date optimization)
                             predictions in
      let days_until_runout := calculate_days_until_runout today runout_date in
      let suggested_action :=
        _generate_action_suggestion days_until_runout waste_risk current_stock
          (np_mean predictions) (safety_buffer_days optimization) in
      coverage ← calculate_stock_coverage_days current_stock predictions;
      mret {| opt_sku_id := sku_id;
              runout_date := runout_date;
              waste_risk := waste_risk;
              suggested_action := suggested_action;
              details :=
                {| det_current_stock := current_stock;
                   predicted_30_day_consumption := total_predicted_consumption;
                   det_avg_daily_consumption := np_mean predictions;
                   det_days_until_runout := days_until_runout;
                   stock_coverage_days := coverage;
                   det_perish_date := perish_date optimization;
                   det_safety_buffer_days := safety_buffer_days optimization |} |}
  end.

(** *** The advisor and the decay in the words of the specification *)

(** The running total after [k] forecast days, [sum(predictions[:k])]. *)
Definition cumulative (predictions : list Q) (k : nat) : Q :=
  py_sum (take k predictions).

(** The forecast values of the days whose date satisfies [keep]; the value at
    index [i] belongs to [forecast_date today i]. *)
Fixpoint select_dates (keep : Z → bool) (today : Z) (i : nat)
    (predictions : list Q) : list Q :=
  match predictions with
  | [] => []
  | p :: rest =>
      if keep (forecast_date today i)
      then p :: select_dates keep today (S i) rest
      else select_dates keep today (S i) rest
  end.

(** Forecast consumption over the days strictly before the perish date. *)
Definition consumption_strictly_before (today perish : Z)
    (predictions : list Q) : Q :=
  py_sum (select_dates (fun d => d <? perish) today 0 predictions).

(** Forecast consumption over the days up to and including the perish date. *)
Definition consumption_up_to (today perish : Z) (predictions : list Q) : Q :=
  py_sum (select_dates (fun d => d <=? perish) today 0 predictions).

(** The priority table of the specification: guards on
    [(waste_risk, days_until_runout)], tried in order. *)
Definition action_rules (safety_buffer : Z)
  : list ((bool * option Z → bool) * string) :=
  [ (fun x => x.1,
     "Run a special - high waste risk detected before expiry");
    (fun x => match x.2 with None => true | Some _ => false end,
     "Stock appears sufficient - monitor regularly");
    (fun x => match x.2 with Some d => d <=? safety_buffer | None => false end,
     "Reorder now - critical stock level");
    (fun x => match x.2 with Some d => d <=? safety_buffer + 3 | None => false end,
     "Reorder soon - approaching reorder point");
    (fun x => match x.2 with Some d => 30 <=? d | None => false end,
     "Increase safety buffer - excess inventory detected") ].

Fixpoint first_match {X} (rules : list ((X → bool) * string))
    (otherwise : string) (x : X) : string :=
  match rules with
  | [] => otherwise
  | (guard, action) :: rest =>
      if guard x then action else first_match rest otherwise x
  end.

(** Geometric decay of 2% per day, clamped at 0. *)
Definition geometric_decay (estimate : Q) (i : nat) : Q :=
  py_max0 (estimate * (98 # 100) ^ Z.of_nat i)%Q.

(** Linear decay of 2% of the estimate per day, clamped at 0. *)
Definition linear_decay (estimate : Q) (i : nat) : Q :=
  py_max0 (estimate * (1 - inject_Z (Z.of_nat i) * (2 # 100)))%Q.

Section Models.

(** The feature arrays produced by [ensemble.prepare_data] are opaque. *)
Variables Tabular TimeSeries : Type.

(** [np.expm1] *)
Variable expm1 : Q → Q.

(** [StackedEnsemble]: the two experts, the meta-model and the data
    preparation; each call may raise. *)
Record StackedEnsemble : Type := {
  xgb_model_predict : Tabular → result (list Q);
  lstm_model_predict : TimeSeries → result (list Q);
  meta_model_predict : list (Q * Q) → result (list Q);
  prepare_data : list HistoryRow → result (Tabular * TimeSeries)
}.

(** [db_loader.get_sku_history(sku_id, start_date, end_date)] *)
Definition DbLoader : Type := string → Z → Z → result (list HistoryRow).

Definition predict_with_ensemble (tabular_features : Tabular)
    (time_series_data : TimeSeries) (ensemble : StackedEnsemble)
    (forecast_days : nat) : result (list Q) :=
  xgb_pred ← xgb_model_predict ensemble tabular_features;
  lstm_pred ← lstm_model_predict ensemble time_series_data;
  expert_features ← column_stack xgb_pred lstm_pred;
  final_pred ← meta_model_predict ensemble expert_features;
  mret (forecast_sequence final_pred forecast_days).

(** The future points of [predict_inventory], from the raw forecast. *)
Definition future_points (today : Z) (raw : list Q) : list PredictionDataPoint :=
  let predictions := map (fun x => np_maximum0 (expm1 x)) raw in
  imap (fun i pred_value =>
          {| date := forecast_date today i;
             predicted := Some pred_value;
             actual := None;
             confidence_low := Some (pred_value * (85 # 100))%Q;
             confidence_high := Some (pred_value * (115 # 100))%Q |})
       predictions.

Definition history_point (row : HistoryRow) : PredictionDataPoint :=
  {| date := row_date row;
     actual := Some (qty_consumed row);
     predicted := None;
     confidence_low := None;
     confidence_high := None |}.

Definition predict_inventory (ensemble_predictor : option StackedEnsemble)
    (db_loader : option DbLoader) (today : Z)
    (request : InventoryPredictionRequest)
  : result InventoryPredictionResponse :=
  match ensemble_predictor, db_loader with
  | Some ensemble, Some get_sku_history =>
      try_except
        (historical_data ← get_sku_history (req_sku_id request) (today - 30) today;
         match historical_data with
         | [] =>
             Raise (HTTPException 404
                      (Text ("No historical data found for SKU: "
                             +:+ req_sku_id request)))
         | _ :: _ =>
             '(tabular_features, time_series_data) ←
                prepare_data ensemble historical_data;
             let target_values := map qty_consumed historical_data in
             raw ← predict_with_ensemble tabular_features time_series_data
                     ensemble (Z.to_nat (lookahead_days request));
             let predictions := map (fun x => np_maximum0 (expm1 x)) raw in
             let prediction_data := future_points today raw in
             let prediction_data :=
               fold_left (fun acc '(i, row) => py_insert i (history_point row) acc)
                         (enumerate (tail_n 7 historical_data)) prediction_data in
             let prediction_data := sort_by date prediction_data in
             mret {| resp_sku_id := req_sku_id request;
                     predictions := prediction_data;
                     summary :=
                       {| total_predicted_consumption := py_sum predictions;
                          avg_daily_consumption := np_mean predictions;
                          peak_consumption_day :=
                            Z.of_nat (np_argmax predictions) + 1;
                          forecast_horizon_days := lookahead_days request;
                          historical_avg :=
                            if decide (7 ≤ length target_values)%nat
                            then np_mean (tail_n 7 target_values) else 0%Q |} |}
         end)
        (fun e => Raise (HTTPException 500 (FString "Prediction failed: " e)))
  | _, _ => Raise (HTTPException 503 (Text "Models not loaded"))
  end.

Definition get_optimization_analytics
    (ensemble_predictor : option StackedEnsemble) (db_loader : option DbLoader)
    (today : Z) (sku_id : string) (optimization : OptimizationRequest)
  : result OptimizationResponse :=
  match ensemble_predictor with
  | None => Raise (HTTPException 503 (Text "Models not loaded"))
  | Some _ =>
      try_except
        (let prediction_request :=
           {| req_sku_id := sku_id; lookahead_days := 30;
              req_current_stock := None |} in
         prediction_response ←
           predict_inventory ensemble_predictor db_loader today prediction_request;
         let predictions := omap predicted (predictions prediction_response) in
         optimization_analysis today sku_id optimization predictions)
        (fun e =>
           Raise (HTTPException 500 (FString "Optimization analysis failed: " e)))
  end.

End Models.

Arguments xgb_model_predict {_ _} _ _.
Arguments lstm_model_predict {_ _} _ _.
Arguments meta_model_predict {_ _} _ _.
Arguments prepare_data {_ _} _ _.
Arguments predict_with_ensemble {_ _} _ _ _ _.
Arguments predict_inventory {_ _} _ _ _ _ _.
Arguments get_optimization_analytics {_ _} _ _ _ _ _ _.

End Ensemble.

(** ** [ml/archive/ml_endpoints_simple.py] *)

Module XGBoostOnly.

(** The body of [get_optimization_analytics] of the XGBoost-only router.
    Its statements are those of [ml_endpoints.py], with the stock, the
    perish date and the buffer passed as three parameters instead of one
    request object, and with one more entry, [model_type], in the details. *)
Definition optimization_analysis (today : Z) (sku_id : string)
    (current_stock : Q) (perish_date : option Z) (safety_buffer_days : Z)
    (predictions : list Q) : result (Ensemble.OptimizationResponse * string) :=
  response ←
    Ensemble.optimization_analysis today sku_id
      {| Ensemble.current_stock := current_stock;
         Ensemble.perish_date := perish_date;
         Ensemble.safety_buffer_days := safety_buffer_days |}
      predictions;
  mret (response, "XGBoost").

End XGBoostOnly.

(** ** [ml/ml_simple.py] *)

Module Simple.

Record InventoryPredictionRequest : Type := {
  sku_id : string;
  lookahead_days : Z                   (* Field(7, ge=1, le=90) *)
}.

Record PredictionDataPoint : Type := {
  date : Z;
  actual : option Q;
  predicted : option Q
}.

Record Summary : Type := {
  total_predicted_consumption : Q;
  avg_daily_consumption : Q;
  forecast_horizon_days : Z;
  model_type : string
}.

Record InventoryPredictionResponse : Type := {
  resp_sku_id : string;
  predictions : list PredictionDataPoint;
  summary : Summary
}.

(** One row of the history frame: the columns the endpoint reads.  A cell
    of a numeric column may be null. *)
Record UsageRecord : Type := {
  rec_date : Z;
  rec_covers : option Q;
  rec_seasonality_factor : option Q;
  rec_inventory_start : option Q;
  rec_qty_used : option Q;
  rec_on_order_qty : option Q;
  rec_avg_daily_usage_7d : option Q;
  rec_avg_daily_usage_28d : option Q;
  rec_shelf_life_days : option Q;
  rec_unit_cost : option Q;
  rec_is_holiday : option Q;
  rec_lead_time_days : option Q
}.

(** One row of the [features] frame. *)
Record FeatureRow : Type := {
  covers : Q;
  seasonality_factor : Q;
  inventory_start : Q;
  on_order_qty : Q;
  avg_daily_usage_7d : Q;
  avg_daily_usage_28d : Q;
  shelf_life_days : Q;
  unit_cost : Q;
  is_holiday : Q;
  lead_time_days : Q;
  day_of_week : Z;
  month : Z;
  day_of_month : Z;
  is_weekend : Z;
  qty_used_lag_1 : Q;
  qty_used_lag_7 : Q;
  qty_used_lag_14 : Q;
  qty_used_roll_3d : Q;
  qty_used_roll_7d : Q
}.

(** [series.fillna(v)] on one cell *)
Definition fillna (v : Q) (cell : option Q) : Q := default v cell.

(** [series.shift(k)]: row [i] receives the cell of row [i - k]. *)
Definition shift (k : nat) (series : list (option Q)) : list (option Q) :=
  take (length series) (replicate k None ++ series).

(** The mean of a full window; null as soon as one cell is null. *)
Definition window_mean (window : list (option Q)) : option Q :=
  values ← mapM id window; Some (np_mean values).

(** [series.rolling(w).mean()]: null until [w] rows are available. *)
Definition rolling_mean (w : nat) (series : list (option Q))
  : list (option Q) :=
  imap (fun i _ =>
          if decide (w ≤ S i)%nat
          then window_mean (take w (drop (S i - w) series))
          else None)
       series.

(** The trained model: [float(xgboost_model.predict(row)[0])], which may
    raise. *)
Definition Model : Type := FeatureRow → result Q.

(** [db_loader.get_sku_history(sku_id, start_date, end_date)] *)
Definition DbLoader : Type := string → Z → Z → result (list UsageRecord).

Section Calendar.

(** The [.dt] accessors of pandas on a date. *)
Variables dt_dayofweek dt_month dt_day : Z → Z.

(** "Basic features", "lag features" and "rolling features": the [features]
    frame built from the history sorted by date. *)
Definition prepare_features (data : list UsageRecord) : list FeatureRow :=
  let qty_used := map rec_qty_used data in
  let lag_1 := shift 1 qty_used in
  let lag_7 := shift 7 qty_used in
  let lag_14 := shift 14 qty_used in
  let roll_3d := rolling_mean 3 qty_used in
  let roll_7d := rolling_mean 7 qty_used in
  let cell (series : list (option Q)) (i : nat) : Q :=
    fillna 0 (mjoin (series !! i)) in
  imap (fun i r =>
          {| covers := fillna 250 (rec_covers r);
             seasonality_factor := fillna 1 (rec_seasonality_factor r);
             inventory_start := fillna 0 (rec_inventory_start r);
             on_order_qty := fillna 0 (rec_on_order_qty r);
             avg_daily_usage_7d := fillna 0 (rec_avg_daily_usage_7d r);
             avg_daily_usage_28d := fillna 0 (rec_avg_daily_usage_28d r);
             shelf_life_days := fillna 30 (rec_shelf_life_days r);
             unit_cost := fillna 1 (rec_unit_cost r);
             is_holiday := fillna 0 (rec_is_holiday r);
             lead_time_days := fillna 2 (rec_lead_time_days r);
             day_of_week := dt_dayofweek (rec_date r);
             month := dt_month (rec_date r);
             day_of_month := dt_day (rec_date r);
             is_weekend := if 5 <=? dt_dayofweek (rec_date r) then 1 else 0;
             qty_used_lag_1 := cell lag_1 i;
             qty_used_lag_7 := cell lag_7 i;
             qty_used_lag_14 := cell lag_14 i;
             qty_used_roll_3d := cell roll_3d i;
             qty_used_roll_7d := cell roll_7d i |})
       data.

(** The fallback of the prediction loop:
    [np.mean(data['qty_used'].fillna(0).tail(7))]. *)
Definition trailing_average (data : list UsageRecord) : Q :=
  np_mean (tail_n 7 (map (fun r => fillna 0 (rec_qty_used r)) data)).

(** One pass of the prediction loop: the [try] around the model call and
    its [except] branch. *)
Definition predict_day (xgboost_model : Model) (latest_features : FeatureRow)
    (data : list UsageRecord) : Q :=
  match xgboost_model latest_features with
  | Ok pred_value => py_max0 pred_value
  | Raise e => trailing_average data
  end.

(** "Make predictions for future days" *)
Definition forecast_loop (xgboost_model : Model) (latest_features : FeatureRow)
    (data : list UsageRecord) (today : Z) (lookahead_days : Z)
  : list PredictionDataPoint :=
  map (fun i : nat =>
         {| date := today + (Z.of_nat i + 1);
            predicted := Some (predict_day xgboost_model latest_features data);
            actual := None |})
      (seq 0 (Z.to_nat lookahead_days)).

Definition history_point (row : UsageRecord) : PredictionDataPoint :=
  {| date := rec_date row;
     actual := Some (fillna 0 (rec_qty_used row));
     predicted := None |}.

Definition predict_inventory_simple (xgboost_model : option Model)
    (db_loader : option DbLoader) (today : Z)
    (request : InventoryPredictionRequest)
  : result InventoryPredictionResponse :=
  match xgboost_model, db_loader with
  | Some model, Some get_sku_history =>
      try_except
        (historical_data ← get_sku_history (sku_id request) (today - 30) today;
         match historical_data with
         | [] =>
             Raise (HTTPException 404
                      (Text ("No data found for SKU: " +:+ sku_id request)))
         | _ :: _ =>
             let data := sort_by rec_date historical_data in
             let features := prepare_features data in
             match last features with
             | Some latest_features =>
                 let predictions :=
                   forecast_loop model latest_features data today
                                 (lookahead_days request) in
                 let predictions :=
                   fold_left (fun acc row => py_insert 0 (history_point row) acc)
                             (tail_n 7 data) predictions in
                 let predictions := sort_by date predictions in
                 let future_preds := omap predicted predictions in
                 mret {| resp_sku_id := sku_id request;
                         predictions := predictions;
                         summary :=
                           {| total_predicted_consumption := py_sum future_preds;
                              avg_daily_consumption :=
                                match future_preds with
                                | [] => 0%Q
                                | _ :: _ => np_mean future_preds
                                end;
                              forecast_horizon_days := lookahead_days request;
                              model_type := "XGBoost Simple" |} |}
             | None =>
                 Raise (HTTPException 422 (Text "Could not prepare features"))
             end
         end)
        (fun e => Raise (HTTPException 500 (FString "Prediction failed: " e)))
  | _, _ => Raise (HTTPException 503 (Text "Model not available"))
  end.

End Calendar.

(** The optional columns of a history row are all null. *)
Definition all_null (r : UsageRecord) : Prop :=
  rec_covers r = None ∧ rec_seasonality_factor r = None
  ∧ rec_inventory_start r = None ∧ rec_qty_used r = None
  ∧ rec_on_order_qty r = None ∧ rec_avg_daily_usage_7d r = None
  ∧ rec_avg_daily_usage_28d r = None ∧ rec_shelf_life_days r = None
  ∧ rec_unit_cost r = None ∧ rec_is_holiday r = None
  ∧ rec_lead_time_days r = None.

(** The feature default table of the specification. *)
Definition has_documented_defaults (f : FeatureRow) : Prop :=
  covers f = 250%Q ∧ seasonality_factor f = 1%Q ∧ inventory_start f = 0%Q
  ∧ on_order_qty f = 0%Q ∧ avg_daily_usage_7d f = 0%Q
  ∧ avg_daily_usage_28d f = 0%Q ∧ shelf_life_days f = 30%Q
  ∧ unit_cost f = 1%Q ∧ is_holiday f = 0%Q ∧ lead_time_days f = 2%Q.

End Simple.

(** ** [ml/src/data_processing/database_loader.py] *)

Module Loader.

(** The numeric columns of a data frame, keyed by name; every column has one
    cell per row, and a cell may be null.  The date and text columns
    ([date], [ingredient_name], [ingredient_category], [category]) that
    [_add_derived_features] also touches are not part of this frame. *)
Record Frame : Type := {
  nrows : nat;
  columns : gmap string (list (option Q))
}.

(** [df[col] = v] with a scalar [v] *)
Definition assign_scalar (col : string) (v : Q) (df : Frame) : Frame :=
  {| nrows := nrows df;
     columns := <[col := replicate (nrows df) (Some v)]> (columns df) |}.

(** [df[col] = df[col].fillna(v)] on a column that exists *)
Definition fillna_column (col : string) (v : Q) (series : list (option Q))
    (df : Frame) : Frame :=
  {| nrows := nrows df;
     columns := <[col := map (fun cell => Some (default v cell)) series]>
                  (columns df) |}.

(** [df.rename(columns={old: new})] *)
Definition rename_column (old new : string) (df : Frame) : Frame :=
  match columns df !! old with
  | Some series =>
      {| nrows := nrows df;
         columns := <[new := series]> (delete old (columns df)) |}
  | None => df
  end.

Definition numeric_defaults : list (string * Q) :=
  [ ("covers", 250%Q);
    ("seasonality_factor", 1%Q);
    ("inventory_start", 0%Q);
    ("qty_used", 0%Q);
    ("inventory_end", 0%Q);
    ("on_order_qty", 0%Q);
    ("avg_daily_usage_7d", 0%Q);
    ("avg_daily_usage_28d", 0%Q);
    ("avg_daily_usage_56d", 0%Q);
    ("units_sold_items_using_ing", 0%Q);
    ("revenue_items_using_ing", 0%Q);
    ("lead_time_days", 2%Q);
    ("is_holiday", 0%Q);
    ("shelf_life_days", 30%Q);
    ("unit_cost", 1%Q) ].

(** One pass of the loop over [numeric_defaults.items()]. *)
Definition ensure_default (df : Frame) (entry : string * Q) : Frame :=
  let '(col, default_val) := entry in
  match columns df !! col with
  | None => assign_scalar col default_val df
  | Some series => fillna_column col default_val series df
  end.

(** [if col not in df.columns: df[col] = v] *)
Definition add_if_missing (col : string) (v : Q) (df : Frame) : Frame :=
  match columns df !! col with
  | None => assign_scalar col v df
  | Some _ => df
  end.

Definition _add_derived_features (df : Frame) : Frame :=
  let df := add_if_missing "is_holiday" 0 df in
  let df := add_if_missing "lead_time_days" 2 df in
  let df := rename_column "units_sold_items_using"
                          "units_sold_items_using_ing" df in
  let df := rename_column "revenue_items_using"
                          "revenue_items_using_ing" df in
  fold_left ensure_default numeric_defaults df.

(** The cell of column [col] in row [i], if the column and the row exist. *)
Definition cell (df : Frame) (col : string) (i : nat) : option (option Q) :=
  series ← columns df !! col; series !! i.

(** Row [i] has no value in column [col]: the column is missing, or its
    cell is null. *)
Definition null_at (df : Frame) (col : string) (i : nat) : Prop :=
  match columns df !! col with
  | None => True
  | Some series => series !! i = Some None
  end.

(** Row [i] of column [col] is missing, null, or already holds [d]. *)
Definition fillable (df : Frame) (col : string) (i : nat) (d : Q) : Prop :=
  match columns df !! col with
  | None => True
  | Some series => series !! i = Some None ∨ series !! i = Some (Some d)
  end.

(** The feature default table of the specification. *)
Definition documented_defaults : list (string * Q) :=
  [ ("covers", 250%Q);
    ("seasonality_factor", 1%Q);
    ("inventory_start", 0%Q);
    ("on_order_qty", 0%Q);
    ("avg_daily_usage_7d", 0%Q);
    ("avg_daily_usage_28d", 0%Q);
    ("shelf_life_days", 30%Q);
    ("unit_cost", 1%Q);
    ("is_holiday", 0%Q);
    ("lead_time_days", 2%Q) ].

End Loader.

(** ** [scripts/import_data.py] *)

Module ImportData.

(** One CSV row, as far as the dimension tables read it.  The identifiers
    are the integers [parse_id] returns and [lead_time_days] is the result
    of [safe_int]; the parsing itself is not part of the embedding.  Dates
    stay the strings the code compares. *)
Record CsvRow : Type := {
  rid : Z;
  iid : Z;
  log_date : string;
  restaurant_name : string;
  lead_time_days : option Z
}.

(** "dimension: restaurants": the first name seen for an id is kept. *)
Definition note_restaurant (restaurants : gmap Z string) (row : CsvRow)
  : gmap Z string :=
  match restaurants !! rid row with
  | Some _ => restaurants
  | None => <[rid row := restaurant_name row]> restaurants
  end.

Definition collect_restaurants (rows : list CsvRow) : gmap Z string :=
  fold_left note_restaurant rows ∅.

(** The entry of [rest_ingredients] for one (restaurant, ingredient) pair. *)
Record RestIngredient : Type := {
  ri_lead_time_days : option Z;
  first_date : string
}.

(** "dimension: restaurant_ingredients": a new pair takes the lead time and
    the date of its row; a known pair only moves its first date back. *)
Definition note_rest_ingredient (rest_ingredients : gmap (Z * Z) RestIngredient)
    (row : CsvRow) : gmap (Z * Z) RestIngredient :=
  let ri_key := (rid row, iid row) in
  match rest_ingredients !! ri_key with
  | None =>
      <[ri_key := {| ri_lead_time_days := lead_time_days row;
                     first_date := log_date row |}]> rest_ingredients
  | Some info =>
      if String.ltb (log_date row) (first_date info)
      then <[ri_key := {| ri_lead_time_days := ri_lead_time_days info;
                          first_date := log_date row |}]> rest_ingredients
      else rest_ingredients
  end.

Definition collect_rest_ingredients (rows : list CsvRow)
  : gmap (Z * Z) RestIngredient :=
  fold_left note_rest_ingredient rows ∅.

(** [range(0, n, step)] for a positive step, written as the loop it is;
    [n] rounds are enough. *)
Fixpoint range_from (fuel i n step : nat) : list nat :=
  match fuel with
  | O => []
  | S fuel =>
      if decide (i < n)%nat then i :: range_from fuel (i + step) n step
      else []
  end.

Definition range_step (n step : nat) : list nat := range_from n 0 n step.

Definition batch_size : nat := 5000.

(** The batches handed to [cur.executemany], in order:
    [rows[i : i + batch_size]] for [i] in [range(0, len(rows), batch_size)]. *)
Definition batches {A} (size : nat) (rows : list A) : list (list A) :=
  map (fun i => take size (drop i rows)) (range_step (length rows) size).

(** The rows that belong to one (restaurant, ingredient) pair. *)
Definition rows_of_pair (key : Z * Z) (rows : list CsvRow) : list CsvRow :=
  filter (fun row => (rid row, iid row) = key) rows.

(** The rows of one restaurant. *)
Definition rows_of_restaurant (r : Z) (rows : list CsvRow) : list CsvRow :=
  filter (fun row => rid row = r) rows.

(** The earliest of a date and the dates of some rows, scanning the rows
    in order and moving on every strictly earlier date. *)
Definition earliest (d : string) (rows : list CsvRow) : string :=
  fold_left (fun m row => if String.ltb (log_date row) m then log_date row
                          else m)
            rows d.

End ImportData.

(** ** [ml/train_simple_xgboost.py] *)

Module Training.

(** A frame as its rows, each row a list of cells. *)
Definition Rows : Type := list (list (option Q)).

(** [frame.fillna(0)], the last step of [prepare_features] *)
Definition fillna0 (frame : Rows) : Rows :=
  map (map (fun cell => Some (default 0%Q cell))) frame.

Definition is_null (cell : option Q) : bool :=
  match cell with None => true | Some _ => false end.

(** [~features.isnull().any(axis=1)] *)
Definition valid_mask (features : Rows) : list bool :=
  map (fun row => negb (existsb is_null row)) features.

(** [frame[mask]]: the rows whose mask entry is true *)
Definition select_rows {A} (mask : list bool) (rows : list A) : list A :=
  omap (fun '(row, keep) => if keep : bool then Some row else None)
       (zip rows mask).

(** "Remove rows with insufficient data": the feature rows
    [train_simple_xgboost] keeps, from the selected columns
    [data[available_cols]] that [prepare_features] fills and returns. *)
Definition training_features (selected : Rows) : Rows :=
  let features := fillna0 selected in
  let valid_mask := valid_mask features in
  select_rows valid_mask features.

End Training.

(** ** The prediction loop of [ml/archive/ml_endpoints_simple.py] *)

Module XGBoostRouter.

(** The model call of one forecast day,
    [float(xgboost_model.predict(adjusted_features)[0])], on the feature
    row the loop copies unchanged each day. *)
Definition Model (Features : Type) : Type := Features → result Q.

(** "Make predictions": the loop over [range(lookahead_days)].  There is no
    [try] around the model call here, so the first failing call ends the
    loop. *)
Fixpoint prediction_loop {Features} (xgboost_model : Model Features)
    (base_features : Features) (today : Z) (i : nat) (days : nat)
  : result (list Ensemble.PredictionDataPoint) :=
  match days with
  | O => mret []
  | S days =>
      pred_value ← xgboost_model base_features;
      let pred_value := py_max0 pred_value in
      rest ← prediction_loop xgboost_model base_features today (S i) days;
      mret ({| Ensemble.date := today + (Z.of_nat i + 1);
               Ensemble.predicted := Some pred_value;
               Ensemble.actual := None;
               Ensemble.confidence_low := Some (pred_value * (85 # 100))%Q;
               Ensemble.confidence_high := Some (pred_value * (115 # 100))%Q |}
            :: rest)
  end.

Definition make_predictions {Features} (xgboost_model : Model Features)
    (base_features : Features) (today : Z) (lookahead_days : Z)
  : result (list Ensemble.PredictionDataPoint) :=
  prediction_loop xgboost_model base_features today 0
    (Z.to_nat lookahead_days).

End XGBoostRouter.

(** ** Readings of the feature frame *)

Module SimpleReadings.
Import Simple.

(** The usage recorded [k] rows earlier, nulls read as 0; 0 for the first
    [k] rows of the history. *)
Definition usage_rows_back (data : list UsageRecord) (i k : nat) : Q :=
  if decide (i < k)%nat then 0%Q
  else match data !! (i - k)%nat with
       | Some r => fillna 0 (rec_qty_used r)
       | None => 0%Q
       end.

End SimpleReadings.

(** ** Readings of a loaded frame *)

Module LoaderReadings.
Import Loader.

(** Every column has one cell per row. *)
Definition well_formed (df : Frame) : Prop :=
  ∀ col series, columns df !! col = Some series → length series = nrows df.

(** A column without a null cell. *)
Definition null_free (series : list (option Q)) : Prop :=
  Forall is_Some series.

(** [series.fillna(v)] on a whole column *)
Definition filled (v : Q) (series : list (option Q)) : list (option Q) :=
  map (fun cell => Some (default v cell)) series.

End LoaderReadings.

(** ** Sample data for the worked cases *)

Module Samples.

(** 2026-02-07 as a day number. *)
Definition sample_today : Z := 739654.

(** [date.weekday()] from the day number; month and day of the month of the
    sample date. *)
Definition sample_dayofweek (d : Z) : Z := (d + 6) mod 7.
Definition sample_month (d : Z) : Z := 2.
Definition sample_day (d : Z) : Z := 7.

(** A history row with a date and nothing else. *)
Definition null_record (d : Z) : Simple.UsageRecord :=
  {| Simple.rec_date := d;
     Simple.rec_covers := None;
     Simple.rec_seasonality_factor := None;
     Simple.rec_inventory_start := None;
     Simple.rec_qty_used := None;
     Simple.rec_on_order_qty := None;
     Simple.rec_avg_daily_usage_7d := None;
     Simple.rec_avg_daily_usage_28d := None;
     Simple.rec_shelf_life_days := None;
     Simple.rec_unit_cost := None;
     Simple.rec_is_holiday := None;
     Simple.rec_lead_time_days := None |}.

(** A history row that only records the quantity used. *)
Definition usage_record (d : Z) (qty : Q) : Simple.UsageRecord :=
  {| Simple.rec_date := d;
     Simple.rec_covers := None;
     Simple.rec_seasonality_factor := None;
     Simple.rec_inventory_start := None;
     Simple.rec_qty_used := Some qty;
     Simple.rec_on_order_qty := None;
     Simple.rec_avg_daily_usage_7d := None;
     Simple.rec_avg_daily_usage_28d := None;
     Simple.rec_shelf_life_days := None;
     Simple.rec_unit_cost := None;
     Simple.rec_is_holiday := None;
     Simple.rec_lead_time_days := None |}.

(** Two days of history: 3 and 5 units used. *)
Definition sample_history : list Simple.UsageRecord :=
  [ usage_record 739653 3; usage_record 739654 5 ].

(** Three days of history: 3, 5 and 7 units used. *)
Definition three_days : list Simple.UsageRecord :=
  [ usage_record 739652 3; usage_record 739653 5; usage_record 739654 7 ].

(** The latest feature row of a history, as the endpoint takes it. *)
Definition latest_features_of (data : list Simple.UsageRecord)
  : Simple.FeatureRow :=
  default
    {| Simple.covers := 250; Simple.seasonality_factor := 1;
       Simple.inventory_start := 0; Simple.on_order_qty := 0;
       Simple.avg_daily_usage_7d := 0; Simple.avg_daily_usage_28d := 0;
       Simple.shelf_life_days := 30; Simple.unit_cost := 1;
       Simple.is_holiday := 0; Simple.lead_time_days := 2;
       Simple.day_of_week := 0; Simple.month := 1; Simple.day_of_month := 1;
       Simple.is_weekend := 0; Simple.qty_used_lag_1 := 0;
       Simple.qty_used_lag_7 := 0; Simple.qty_used_lag_14 := 0;
       Simple.qty_used_roll_3d := 0; Simple.qty_used_roll_7d := 0 |}%Q
    (last (Simple.prepare_features sample_dayofweek sample_month sample_day
             (sort_by Simple.rec_date data))).

(** A model that answers 12 for every row, and one whose call raises. *)
Definition constant_model : Simple.Model := fun _ => Ok 12%Q.
Definition failing_model : Simple.Model :=
  fun _ => Raise (PythonError "feature shape mismatch").

(** The archive router's model on an opaque feature row. *)
Definition negative_xgboost : XGBoostRouter.Model unit :=
  fun _ => Ok (-(3))%Q.
Definition failing_xgboost : XGBoostRouter.Model unit :=
  fun _ => Raise (PythonError "feature shape mismatch").

(** Selected training columns with nulls left by the lags. *)
Definition lagged_rows : Training.Rows :=
  [[Some 250; None; None]; [Some 240; Some 4; None]; [None; Some 5; Some 4]]%Q.

(** A store whose query raises. *)
Definition failing_db : Simple.DbLoader :=
  fun _ _ _ => Raise (PythonError "connection refused").

(** A store with no history for any SKU, and one with the sample history. *)
Definition empty_db : Simple.DbLoader := fun _ _ _ => Ok [].
Definition sample_db : Simple.DbLoader := fun _ _ _ => Ok sample_history.

(** A stand-in ensemble: constant experts and an averaging meta-model. *)
Definition averaging_ensemble : Ensemble.StackedEnsemble unit unit :=
  {| Ensemble.xgb_model_predict := fun _ => Ok [3%Q];
     Ensemble.lstm_model_predict := fun _ => Ok [5%Q];
     Ensemble.meta_model_predict :=
       fun feats => Ok (map (fun ab => ((ab.1 + ab.2) / 2)%Q) feats);
     Ensemble.prepare_data := fun _ => Ok (tt, tt) |}.

(** A frame of two rows whose [covers] column is null in row 0 and which
    has no [shelf_life_days] column. *)
Definition sample_frame : Loader.Frame :=
  {| Loader.nrows := 2;
     Loader.columns := {[ "covers" := [None; Some 180%Q] ]} |}.

End Samples.

(** * Properties *)

(** ** Comparisons and sums *)

Lemma Qltb_lt (x y : Q) : Qltb x y = true ↔ (x < y)%Q.
Proof.
  unfold Qltb. rewrite negb_true_iff. split.
  - intros H. apply Qnot_le_lt. intros Hle.
    apply Qle_bool_iff in Hle. congruence.
  - intros H. destruct (Qle_bool y x) eqn:E; [|reflexivity].
    apply Qle_bool_iff in E. exfalso. exact (Qlt_not_le _ _ H E).
Qed.

Lemma Qltb_ge (x y : Q) : Qltb x y = false ↔ (y <= x)%Q.
Proof.
  unfold Qltb. rewrite negb_false_iff. apply Qle_bool_iff.
Qed.

Lemma Qle_bool_false (x y : Q) : Qle_bool x y = false ↔ (y < x)%Q.
Proof.
  rewrite <- Qltb_lt. unfold Qltb. rewrite negb_true_iff. reflexivity.
Qed.

(** ** Sorting and inserting *)

Lemma insert_by_head {A} (key : A → Z) (x : A) (l : list A) :
  Forall (fun y => key x <= key y) l → insert_by key x l = x :: l.
Proof.
  intros H. destruct l as [|y rest]; [reflexivity|].
  apply Forall_cons in H as [Hxy _]. simpl.
  apply Z.leb_le in Hxy. rewrite Hxy. reflexivity.
Qed.

(** Sorting leaves a list that is already in order as it is. *)
Lemma sort_by_ascending {A} (key : A → Z) (l : list A) :
  ascending key l → sort_by key l = l.
Proof.
  induction l as [|x rest IH]; intros H; [reflexivity|].
  destruct H as [Hx Hrest]. unfold sort_by in *. simpl.
  rewrite IH by exact Hrest. apply insert_by_head. exact Hx.
Qed.

(** Inserting an element that [f] drops does not change what [f] keeps. *)
Lemma omap_insert_by_None {A B} (f : A → option B) (key : A → Z)
    (x : A) (l : list A) :
  f x = None → omap f (insert_by key x l) = omap f l.
Proof.
  intros Hx. induction l as [|y rest IH]; cbn [insert_by].
  - cbn. rewrite Hx. reflexivity.
  - destruct (key x <=? key y).
    + change (omap f (x :: y :: rest))
        with (from_option (fun b => b :: omap f (y :: rest))
                (omap f (y :: rest)) (f x)).
      rewrite Hx. reflexivity.
    + change (omap f (y :: insert_by key x rest))
        with (from_option (fun b => b :: omap f (insert_by key x rest))
                (omap f (insert_by key x rest)) (f y)).
      rewrite IH. reflexivity.
Qed.

Lemma omap_sort_by_app_None {A B} (f : A → option B) (key : A → Z)
    (front back : list A) :
  Forall (fun x => f x = None) front →
  omap f (sort_by key (front ++ back)) = omap f (sort_by key back).
Proof.
  intros H. unfold sort_by. rewrite foldr_app.
  induction H as [|x front Hx _ IH]; cbn [foldr app]; [reflexivity|].
  rewrite omap_insert_by_None by exact Hx. exact IH.
Qed.

(** The loop [for i, row in enumerate(rows): acc.insert(i, h(row))] puts
    the new elements, in order, in front of the list. *)
Lemma insert_enumerated {A B} (h : A → B) (rows : list A) :
  ∀ (done rest : list B),
    fold_left (fun acc '(i, row) => py_insert i (h row) acc)
      (imap (fun i x => (length done + i, x)%nat) rows) (done ++ rest)
    = done ++ map h rows ++ rest.
Proof.
  induction rows as [|row rows IH]; intros done rest; [reflexivity|].
  cbn [imap fold_left map].
  replace (py_insert (length done + 0) (h row) (done ++ rest))
    with ((done ++ [h row]) ++ rest).
  - rewrite (imap_ext _ (fun i x => (length (done ++ [h row]) + i, x)%nat)).
    + rewrite IH. rewrite <- !app_assoc. reflexivity.
    + intros i x _. simpl. rewrite length_app. simpl. f_equal. lia.
  - unfold py_insert. rewrite Nat.add_0_r.
    rewrite take_app_length, drop_app_length.
    rewrite <- app_assoc. reflexivity.
Qed.

Lemma insert_enumerated_front {A B} (h : A → B) (rows : list A)
    (rest : list B) :
  fold_left (fun acc '(i, row) => py_insert i (h row) acc)
    (enumerate rows) rest
  = map h rows ++ rest.
Proof. exact (insert_enumerated h rows [] rest). Qed.

Module EnsembleProofs.
Import Ensemble Samples.

(** The loop entered at index [i] with total [acc]: where it stops, and what
    it has seen before stopping. *)
Lemma runout_loop_spec today stock (rest : list Q) : ∀ (acc : Q) (i : nat),
  match runout_loop today stock acc i rest with
  | Some d =>
      ∃ k : nat, (k < length rest)%nat ∧ d = forecast_date today (i + k)
        ∧ (stock <= fold_left Qplus (take (S k) rest) acc)%Q
        ∧ ∀ j : nat, (j < k)%nat →
            (fold_left Qplus (take (S j) rest) acc < stock)%Q
  | None =>
      ∀ j : nat, (j < length rest)%nat →
        (fold_left Qplus (take (S j) rest) acc < stock)%Q
  end.
Proof.
  induction rest as [|x rest IH]; intros acc i; simpl.
  - intros j Hj. lia.
  - destruct (Qle_bool stock (acc + x)) eqn:E.
    + exists 0%nat. split; [lia|]. split; [f_equal; lia|]. split.
      * simpl. destruct rest; simpl; apply Qle_bool_iff; exact E.
      * intros j Hj. lia.
    + apply Qle_bool_false in E.
      specialize (IH (acc + x)%Q (S i)).
      destruct (runout_loop today stock (acc + x) (S i) rest) as [d|].
      * destruct IH as (k & Hk & Hd & Hge & Hlt).
        exists (S k). split; [lia|]. split; [rewrite Hd; f_equal; lia|].
        split; [exact Hge|].
        intros [|j] Hj.
        -- simpl. destruct rest; exact E.
        -- apply (Hlt j). lia.
      * intros [|j] Hj.
        -- simpl. destruct rest; exact E.
        -- apply (IH j). lia.
Qed.

Lemma calculate_runout_date_spec today stock (predictions : list Q) :
  match calculate_runout_date today stock predictions with
  | Some d =>
      ∃ i : nat, (i < length predictions)%nat ∧ d = forecast_date today i
        ∧ (stock <= cumulative predictions (S i))%Q
        ∧ ∀ j : nat, (j < i)%nat → (cumulative predictions (S j) < stock)%Q
  | None =>
      ∀ j : nat, (j < length predictions)%nat →
        (cumulative predictions (S j) < stock)%Q
  end.
Proof.
  exact (runout_loop_spec today stock predictions 0%Q 0%nat).
Qed.

(** The stock-coverage entry never raises: the division is guarded. *)
Lemma calculate_stock_coverage_days_ok (stock : Q) (predictions : list Q) :
  calculate_stock_coverage_days stock predictions
  = Ok (if Qltb 0 (np_mean predictions)
        then py_int (stock / np_mean predictions) else 999).
Proof.
  unfold calculate_stock_coverage_days, py_truediv.
  destruct (Qltb 0 (np_mean predictions)) eqn:E; [|reflexivity].
  apply Qltb_lt in E.
  destruct (Qeq_bool (np_mean predictions) 0) eqn:E0; [|reflexivity].
  apply Qeq_bool_iff in E0. rewrite E0 in E.
  exfalso. exact (Qlt_irrefl _ E).
Qed.

(** On a non-empty forecast the analysis returns, with these fields. *)
Lemma optimization_analysis_ok today sku_id optimization (p : Q) (ps : list Q) :
  let predictions := p :: ps in
  let stock := current_stock optimization in
  let runout := calculate_runout_date today stock predictions in
  let waste :=
    calculate_waste_risk today stock (perish_date optimization) predictions in
  let days := calculate_days_until_runout today runout in
  optimization_analysis today sku_id optimization predictions
  = Ok {| opt_sku_id := sku_id;
          runout_date := runout;
          waste_risk := waste;
          suggested_action :=
            _generate_action_suggestion days waste stock (np_mean predictions)
              (safety_buffer_days optimization);
          details :=
            {| det_current_stock := stock;
               predicted_30_day_consumption := py_sum predictions;
               det_avg_daily_consumption := np_mean predictions;
               det_days_until_runout := days;
               stock_coverage_days :=
                 (if Qltb 0 (np_mean predictions)
                  then py_int (stock / np_mean predictions) else 999);
               det_perish_date := perish_date optimization;
               det_safety_buffer_days := safety_buffer_days optimization |} |}.
Proof.
  intros. unfold optimization_analysis.
  fold predictions. fold stock.
  rewrite calculate_stock_coverage_days_ok. reflexivity.
Qed.

Lemma runout_constant_20 today (n : nat) :
  calculate_runout_date today 100 (replicate (5 + n) (20 : Q))
  = Some (forecast_date today 4).
Proof. reflexivity. Qed.

(** C1. For every stock level and every non-empty forecast, the optimization
    analysis returns without error, and its runout date is the date of the
    first forecast day at which the running total of predicted consumption
    has reached the current stock; it is absent exactly when the running
    total stays below the stock over the whole horizon.  With a stock of 100
    and 20 predicted for each day, the runout date is the fifth forecast
    day. *)
Theorem runout_date_first_crossing today sku_id optimization
    (p : Q) (ps : list Q) :
  let predictions := p :: ps in
  let stock := current_stock optimization in
  (∃ r, optimization_analysis today sku_id optimization predictions = Ok r
     ∧ match runout_date r with
       | Some d =>
           ∃ i : nat, (i < length predictions)%nat
             ∧ d = forecast_date today i
             ∧ (stock <= cumulative predictions (S i))%Q
             ∧ ∀ j : nat, (j < i)%nat →
                 (cumulative predictions (S j) < stock)%Q
       | None =>
           ∀ j : nat, (j < length predictions)%nat →
             (cumulative predictions (S j) < stock)%Q
       end)
  ∧ (∀ n : nat,
       calculate_runout_date today 100 (replicate (5 + n) (20 : Q))
       = Some (today + 5)).
Proof.
  intros predictions stock. split.
  - eexists. split; [apply optimization_analysis_ok|]. simpl.
    apply calculate_runout_date_spec.
  - intros n. rewrite runout_constant_20. reflexivity.
Qed.

(** Raising the stock cannot bring the runout forward, for any forecast. *)
Lemma runout_monotone today (predictions : list Q) (s1 s2 : Q) :
  (s1 <= s2)%Q →
  match calculate_days_until_runout today
          (calculate_runout_date today s1 predictions),
        calculate_days_until_runout today
          (calculate_runout_date today s2 predictions) with
  | _, None => True
  | Some d1, Some d2 => d1 <= d2
  | None, Some _ => False
  end.
Proof.
  intros Hle.
  pose proof (calculate_runout_date_spec today s1 predictions) as H1.
  pose proof (calculate_runout_date_spec today s2 predictions) as H2.
  destruct (calculate_runout_date today s2 predictions) as [d2|]; simpl;
    [|destruct (calculate_runout_date today s1 predictions); exact I].
  destruct H2 as (i2 & Hi2 & -> & Hge2 & _).
  destruct (calculate_runout_date today s1 predictions) as [d1|]; simpl.
  - destruct H1 as (i1 & Hi1 & -> & _ & Hlt1).
    destruct (decide (i1 ≤ i2)%nat) as [Hi|Hi].
    + unfold forecast_date. lia.
    + exfalso. assert (Hj : (i2 < i1)%nat) by lia.
      specialize (Hlt1 i2 Hj).
      apply (Qlt_irrefl s1).
      eapply Qle_lt_trans; [|exact Hlt1].
      eapply Qle_trans; [exact Hle|exact Hge2].
  - specialize (H1 i2 Hi2). apply (Qlt_irrefl s1).
    eapply Qle_lt_trans; [|exact H1].
    eapply Qle_trans; [exact Hle|exact Hge2].
Qed.

(** C9. For a fixed forecast of non-negative daily predictions and stock
    levels [s1 <= s2], the days until runout computed for [s2] are at least
    those computed for [s1], or the runout for [s2] is absent. *)
Theorem days_until_runout_monotone today (predictions : list Q) (s1 s2 : Q) :
  Forall (fun d => 0 <= d)%Q predictions →
  (s1 <= s2)%Q →
  match calculate_days_until_runout today
          (calculate_runout_date today s1 predictions),
        calculate_days_until_runout today
          (calculate_runout_date today s2 predictions) with
  | _, None => True
  | Some d1, Some d2 => d1 <= d2
  | None, Some _ => False
  end.
Proof.
  intros _ Hle. exact (runout_monotone today predictions s1 s2 Hle).
Qed.

Lemma days_until_runout_monotone_witness :
  calculate_days_until_runout 739654
    (calculate_runout_date 739654 50 [20; 20; 20; 20; 20]%Q) = Some 3
  ∧ calculate_days_until_runout 739654
      (calculate_runout_date 739654 100 [20; 20; 20; 20; 20]%Q) = Some 5
  ∧ match calculate_days_until_runout 739654
            (calculate_runout_date 739654 50 [20; 20; 20; 20; 20]%Q),
          calculate_days_until_runout 739654
            (calculate_runout_date 739654 100 [20; 20; 20; 20; 20]%Q) with
    | _, None => True
    | Some d1, Some d2 => d1 <= d2
    | None, Some _ => False
    end.
Proof.
  split; [reflexivity|]. split; [reflexivity|].
  apply (days_until_runout_monotone 739654 [20; 20; 20; 20; 20]%Q 50 100).
  - repeat constructor; discriminate.
  - discriminate.
Defined.

Lemma fold_left_Qplus_zeros (n : nat) (acc : Q) :
  (fold_left Qplus (replicate n (0 : Q)) acc == acc)%Q.
Proof.
  revert acc. induction n as [|n IH]; intros acc; simpl.
  - reflexivity.
  - rewrite IH. ring.
Qed.

Lemma np_mean_zeros (n : nat) : (np_mean (replicate n (0 : Q)) == 0)%Q.
Proof.
  unfold np_mean, py_sum, Qdiv. rewrite fold_left_Qplus_zeros. ring.
Qed.

Lemma coverage_cases (stock mean : Q) :
  let coverage := if Qltb 0 mean then py_int (stock / mean) else 999 in
  ((0 < mean)%Q ∧ coverage = py_int (stock / mean))
  ∨ (¬ (0 < mean)%Q ∧ coverage = 999).
Proof.
  simpl. destruct (Qltb 0 mean) eqn:E.
  - left. split; [apply Qltb_lt; exact E|reflexivity].
  - right. split; [|reflexivity].
    intros Hlt. apply Qltb_lt in Hlt. congruence.
Qed.

(** C10. Building the details never divides by zero, in either router: on
    every non-empty forecast (all-zero ones included) the analysis returns,
    the coverage entry is [int(current_stock / mean)] when the mean
    prediction is strictly positive and 999 otherwise, and the guarded
    division does not raise. *)
Theorem stock_coverage_days_guarded today sku_id optimization
    (p : Q) (ps : list Q) :
  let predictions := p :: ps in
  let stock := current_stock optimization in
  let mean := np_mean predictions in
  (∃ r, optimization_analysis today sku_id optimization predictions = Ok r
     ∧ (((0 < mean)%Q
          ∧ stock_coverage_days (details r) = py_int (stock / mean))
        ∨ (¬ (0 < mean)%Q ∧ stock_coverage_days (details r) = 999)))
  ∧ (∃ r model_type,
       XGBoostOnly.optimization_analysis today sku_id stock
         (perish_date optimization) (safety_buffer_days optimization)
         predictions = Ok (r, model_type)
       ∧ (((0 < mean)%Q
            ∧ stock_coverage_days (details r) = py_int (stock / mean))
          ∨ (¬ (0 < mean)%Q ∧ stock_coverage_days (details r) = 999)))
  ∧ calculate_stock_coverage_days stock predictions ≠ Raise ZeroDivisionError
  ∧ (∀ n : nat,
       calculate_stock_coverage_days stock (replicate (S n) (0 : Q)) = Ok 999).
Proof.
  intros predictions stock mean. split; [|split; [|split]].
  - eexists. split; [apply optimization_analysis_ok|].
    apply coverage_cases.
  - eexists. eexists. split.
    + unfold XGBoostOnly.optimization_analysis, predictions.
      rewrite optimization_analysis_ok. reflexivity.
    + apply coverage_cases.
  - rewrite calculate_stock_coverage_days_ok. discriminate.
  - intros n. rewrite calculate_stock_coverage_days_ok.
    assert (E : Qltb 0 (np_mean (replicate (S n) (0 : Q))) = false).
    { apply Qltb_ge. rewrite np_mean_zeros. apply Qle_refl. }
    rewrite E. reflexivity.
Qed.

(** C2. The recommended action is the first matching row of the priority
    table, evaluated on (waste risk, days until runout, safety buffer); it
    does not depend on the stock or the average consumption that are passed
    along; with 2 days until runout, a buffer of 3 and no waste risk it is
    "Reorder now - critical stock level". *)
Theorem action_suggestion_priority_table (days_until_runout : option Z)
    (waste_risk : bool) (stock avg : Q) (safety_buffer : Z) :
  _generate_action_suggestion days_until_runout waste_risk stock avg
    safety_buffer
  = first_match (action_rules safety_buffer)
      "Monitor closely - stock levels normal" (waste_risk, days_until_runout)
  ∧ (∀ stock' avg' : Q,
       _generate_action_suggestion days_until_runout waste_risk stock avg
         safety_buffer
       = _generate_action_suggestion days_until_runout waste_risk stock' avg'
           safety_buffer)
  ∧ _generate_action_suggestion (Some 2) false stock avg 3
    = "Reorder now - critical stock level".
Proof.
  split; [|split].
  - unfold _generate_action_suggestion, action_rules, first_match; simpl.
    destruct waste_risk; [reflexivity|].
    destruct days_until_runout as [d|]; [|reflexivity].
    destruct (d <=? safety_buffer); [reflexivity|].
    destruct (d <=? safety_buffer + 3); [reflexivity|].
    destruct (30 <=? d); reflexivity.
  - intros stock' avg'. reflexivity.
  - reflexivity.
Qed.

(** Selecting the days up to a date is taking a prefix of the forecast. *)
Lemma select_dates_up_to today perish (predictions : list Q) : ∀ i : nat,
  select_dates (fun d => d <=? perish) today i predictions
  = take (Z.to_nat (perish - today) - i) predictions.
Proof.
  induction predictions as [|x rest IH]; intros i; simpl.
  - rewrite take_nil. reflexivity.
  - rewrite IH. unfold forecast_date.
    destruct (today + (Z.of_nat i + 1) <=? perish) eqn:E.
    + apply Z.leb_le in E.
      replace (Z.to_nat (perish - today) - i)%nat
        with (S (Z.to_nat (perish - today) - S i)) by lia.
      reflexivity.
    + apply Z.leb_gt in E.
      replace (Z.to_nat (perish - today) - i)%nat with 0%nat by lia.
      replace (Z.to_nat (perish - today) - S i)%nat with 0%nat by lia.
      rewrite take_0. reflexivity.
Qed.

Lemma consumption_up_to_cumulative today perish (predictions : list Q) :
  consumption_up_to today perish predictions
  = cumulative predictions (Z.to_nat (perish - today)).
Proof.
  unfold consumption_up_to, cumulative. rewrite select_dates_up_to.
  rewrite Nat.sub_0_r. reflexivity.
Qed.

(** C3, as the code has it. Waste risk is true if and only if a perish date
    is given, lies strictly in the future, and the forecast consumption
    summed over the forecast days up to and including the perish date (the
    first [days_to_perish] forecast values) is strictly less than the
    current stock; it is false when the perish date is absent or not
    strictly in the future. *)
Theorem waste_risk_up_to_perish_date today (stock : Q) (perish : option Z)
    (predictions : list Q) :
  (calculate_waste_risk today stock perish predictions = true
   ↔ ∃ p : Z, perish = Some p ∧ today < p
       ∧ (consumption_up_to today p predictions < stock)%Q)
  ∧ calculate_waste_risk today stock None predictions = false
  ∧ (∀ k : nat,
       calculate_waste_risk today stock (Some (today - Z.of_nat k)) predictions
       = false).
Proof.
  split; [|split].
  - unfold calculate_waste_risk. destruct perish as [p|].
    + destruct (0 <? p - today) eqn:E.
      * apply Z.ltb_lt in E. rewrite Qltb_lt. split.
        -- intros H. exists p. split; [reflexivity|]. split; [lia|].
           rewrite consumption_up_to_cumulative. exact H.
        -- intros (p' & Hp & _ & H). injection Hp as <-.
           rewrite consumption_up_to_cumulative in H. exact H.
      * apply Z.ltb_ge in E. split; [discriminate|].
        intros (p' & Hp & Hlt & _). injection Hp as <-. lia.
    + split; [discriminate|]. intros (p & Hp & _). discriminate.
  - reflexivity.
  - intros k. unfold calculate_waste_risk.
    replace (0 <? today - Z.of_nat k - today) with false; [reflexivity|].
    symmetry. apply Z.ltb_ge. lia.
Qed.

(** C3, as stated, fails. With the perish date tomorrow, a stock of 50 and
    60 predicted for tomorrow, no forecast day lies strictly before the
    perish date, so the stated sum is 0 < 50; the code sums the first
    forecast value, 60, and reports no waste risk. *)
Lemma waste_risk_strictly_before_counterexample :
  ¬ (calculate_waste_risk 739654 50 (Some 739655) [60; 1]%Q = true
     ↔ ∃ p : Z, Some 739655 = Some p ∧ 739654 < p
         ∧ (consumption_strictly_before 739654 p [60; 1]%Q < 50)%Q).
Proof.
  intros [_ H].
  assert (E : calculate_waste_risk 739654 50 (Some 739655) [60; 1]%Q = true).
  { apply H. exists 739655. split; [reflexivity|]. split; [lia|].
    reflexivity. }
  vm_compute in E. discriminate.
Qed.

Lemma py_max0_nonneg (x : Q) : (0 <= py_max0 x)%Q.
Proof.
  unfold py_max0. destruct (Qltb 0 x) eqn:E.
  - apply Qltb_lt in E. apply Qlt_le_weak. exact E.
  - apply Qle_refl.
Qed.

Lemma np_maximum0_nonneg (x : Q) : (0 <= np_maximum0 x)%Q.
Proof.
  unfold np_maximum0. destruct (Qle_bool 0 x) eqn:E.
  - apply Qle_bool_iff. exact E.
  - apply Qle_refl.
Qed.

Lemma forecast_sequence_length (final_pred : list Q) (H : nat) :
  length (forecast_sequence final_pred H) = H.
Proof.
  unfold forecast_sequence. rewrite length_map, length_seq. reflexivity.
Qed.

Lemma forecast_sequence_lookup (final_pred : list Q) (H i : nat) :
  (i < H)%nat →
  forecast_sequence final_pred H !! i
  = Some (linear_decay (point_estimate final_pred) i).
Proof.
  intros Hi. unfold forecast_sequence.
  rewrite list_lookup_fmap, lookup_seq_lt by exact Hi. reflexivity.
Qed.

(** C4, as the code has it. Once the meta-model has returned, the ensemble
    forecast has one value per day of the horizon, and the value for day
    [i] is the point estimate decayed linearly by 2% of the estimate per
    day, [estimate * (1 - 0.02 * i)], clamped to be non-negative. *)
Theorem ensemble_forecast_linear_decay {Tabular TimeSeries : Type}
    (ensemble : StackedEnsemble Tabular TimeSeries)
    (tabular_features : Tabular) (time_series_data : TimeSeries)
    (xgb_pred lstm_pred final_pred : list Q) (H i : nat) :
  xgb_model_predict ensemble tabular_features = Ok xgb_pred →
  lstm_model_predict ensemble time_series_data = Ok lstm_pred →
  length xgb_pred = length lstm_pred →
  meta_model_predict ensemble (zip xgb_pred lstm_pred) = Ok final_pred →
  (i < H)%nat →
  ∃ forecast : list Q,
    predict_with_ensemble tabular_features time_series_data ensemble H
    = Ok forecast
    ∧ length forecast = H
    ∧ forecast !! i = Some (linear_decay (point_estimate final_pred) i)
    ∧ (0 <= linear_decay (point_estimate final_pred) i)%Q.
Proof.
  intros Hx Hl Hlen Hm Hi.
  exists (forecast_sequence final_pred H). split; [|split; [|split]].
  - unfold predict_with_ensemble. rewrite Hx. simpl. rewrite Hl. simpl.
    unfold column_stack. rewrite decide_True by exact Hlen. simpl.
    rewrite Hm. reflexivity.
  - apply forecast_sequence_length.
  - apply forecast_sequence_lookup. exact Hi.
  - apply py_max0_nonneg.
Qed.

Lemma ensemble_forecast_linear_decay_witness :
  ∃ forecast : list Q,
    predict_with_ensemble tt tt averaging_ensemble 7 = Ok forecast
    ∧ length forecast = 7%nat
    ∧ forecast !! 2%nat
      = Some (linear_decay (point_estimate [((3 + 5) / 2)%Q]) 2)
    ∧ (0 <= linear_decay (point_estimate [((3 + 5) / 2)%Q]) 2)%Q.
Proof.
  apply (ensemble_forecast_linear_decay averaging_ensemble tt tt
           [3%Q] [5%Q] [((3 + 5) / 2)%Q] 7 2).
  - reflexivity.
  - reflexivity.
  - reflexivity.
  - reflexivity.
  - lia.
Defined.

(** C4, as stated, fails. For a point estimate of 1 the forecast for day 2
    is 1 - 2 * 0.02 = 0.96, not 0.98^2 = 0.9604. *)
Lemma geometric_decay_counterexample :
  ∃ x : Q,
    forecast_sequence [1%Q] 3 !! 2%nat = Some x
    ∧ (x == 96 # 100)%Q
    ∧ (geometric_decay (point_estimate [1%Q]) 2 == 9604 # 10000)%Q
    ∧ ¬ (x == geometric_decay (point_estimate [1%Q]) 2)%Q.
Proof.
  eexists. split; [reflexivity|]. split; [reflexivity|].
  split; [reflexivity|]. discriminate.
Qed.

Lemma future_points_length expm1 today (raw : list Q) :
  length (future_points expm1 today raw) = length raw.
Proof.
  unfold future_points. rewrite length_imap, length_map. reflexivity.
Qed.

(** C7. For every horizon H in [1,90] the rollout yields exactly H points,
    all dated after today; each has a prediction p >= 0, a lower band equal
    to 0.85 * p and an upper band equal to 1.15 * p, hence
    lower <= p <= upper. *)
Theorem forecast_rollout_points (expm1 : Q → Q) (today : Z)
    (final_pred : list Q) (H : Z) :
  valid_lookahead H →
  let points :=
    future_points expm1 today (forecast_sequence final_pred (Z.to_nat H)) in
  Z.of_nat (length points) = H
  ∧ Forall (fun pt =>
      today < date pt
      ∧ ∃ p lo hi : Q,
          predicted pt = Some p
          ∧ confidence_low pt = Some lo
          ∧ confidence_high pt = Some hi
          ∧ (0 <= p)%Q
          ∧ (lo == (85 # 100) * p)%Q
          ∧ (hi == (115 # 100) * p)%Q
          ∧ (lo <= p)%Q ∧ (p <= hi)%Q) points.
Proof.
  intros [Hlo Hhi] points. split.
  - unfold points.
    rewrite future_points_length, forecast_sequence_length. lia.
  - apply Forall_lookup. intros i pt Hpt.
    unfold points, future_points in Hpt.
    rewrite list_lookup_imap in Hpt.
    destruct (_ !! i) as [p|] eqn:Hp; [|discriminate].
    injection Hpt as <-. simpl.
    split; [unfold forecast_date; lia|].
    apply list_lookup_fmap_Some in Hp as (x & -> & _).
    pose proof (np_maximum0_nonneg (expm1 x)) as Hnn.
    exists (np_maximum0 (expm1 x)), (np_maximum0 (expm1 x) * (85 # 100))%Q,
      (np_maximum0 (expm1 x) * (115 # 100))%Q.
    repeat split; try reflexivity; try exact Hnn; try ring; lra.
Qed.

Lemma forecast_rollout_points_witness :
  let points :=
    future_points (fun x => x) 739654 (forecast_sequence [4%Q] (Z.to_nat 7)) in
  Z.of_nat (length points) = 7
  ∧ Forall (fun pt =>
      739654 < date pt
      ∧ ∃ p lo hi : Q,
          predicted pt = Some p
          ∧ confidence_low pt = Some lo
          ∧ confidence_high pt = Some hi
          ∧ (0 <= p)%Q
          ∧ (lo == (85 # 100) * p)%Q
          ∧ (hi == (115 # 100) * p)%Q
          ∧ (lo <= p)%Q ∧ (p <= hi)%Q) points.
Proof.
  apply (forecast_rollout_points (fun x => x) 739654 [4%Q] 7).
  unfold valid_lookahead. lia.
Defined.

(** *** From the prediction endpoint to the advisor *)

Lemma imap_ascending (l : list Q) : ∀ (f : nat → Q → PredictionDataPoint) (c : Z),
  (∀ i p, date (f i p) = c + Z.of_nat i) → ascending date (imap f l).
Proof.
  induction l as [|x rest IH]; intros f c Hdate; [exact I|].
  cbn [imap ascending]. split.
  - apply Forall_lookup. intros i pt Hpt.
    rewrite list_lookup_imap in Hpt.
    destruct (rest !! i) as [p|]; [|discriminate].
    injection Hpt as <-. unfold compose. rewrite !Hdate. lia.
  - apply (IH _ (c + 1)). intros i p. unfold compose. rewrite Hdate. lia.
Qed.

Lemma future_points_ascending expm1 today (raw : list Q) :
  ascending date (future_points expm1 today raw).
Proof.
  unfold future_points. apply (imap_ascending _ _ (today + 1)).
  intros i p. unfold forecast_date. simpl. lia.
Qed.

Lemma omap_imap_Some (g : PredictionDataPoint → option Q) (l : list Q) :
  ∀ f : nat → Q → PredictionDataPoint,
    (∀ i p, g (f i p) = Some p) → omap g (imap f l) = l.
Proof.
  induction l as [|x rest IH]; intros f Hf; [reflexivity|].
  cbn [imap].
  change (omap g (f 0%nat x :: imap (f ∘ S) rest))
    with (from_option (fun b => b :: omap g (imap (f ∘ S) rest))
            (omap g (imap (f ∘ S) rest)) (g (f 0%nat x))).
  rewrite Hf. simpl. f_equal. apply IH. intros i p. apply Hf.
Qed.

Lemma future_points_predicted expm1 today (raw : list Q) :
  omap predicted (future_points expm1 today raw)
  = map (fun x => np_maximum0 (expm1 x)) raw.
Proof.
  unfold future_points. apply omap_imap_Some. intros i p. reflexivity.
Qed.

(** The forecast values read back from a prediction response are the
    values of the future points, in day order: the history rows carry no
    prediction, and sorting by date keeps the future points in place. *)
Lemma response_predicted_values expm1 today (raw : list Q)
    (historical_data : list HistoryRow) :
  omap predicted
    (sort_by date
       (fold_left (fun acc '(i, row) => py_insert i (history_point row) acc)
          (enumerate (tail_n 7 historical_data))
          (future_points expm1 today raw)))
  = map (fun x => np_maximum0 (expm1 x)) raw.
Proof.
  rewrite insert_enumerated_front.
  rewrite omap_sort_by_app_None.
  - rewrite sort_by_ascending by apply future_points_ascending.
    apply future_points_predicted.
  - apply Forall_fmap. apply Forall_forall. intros row _. reflexivity.
Qed.

Lemma predict_with_ensemble_Ok {Tabular TimeSeries : Type}
    (ensemble : StackedEnsemble Tabular TimeSeries) tab ts (H : nat) raw :
  predict_with_ensemble tab ts ensemble H = Ok raw →
  ∃ final_pred : list Q, raw = forecast_sequence final_pred H.
Proof.
  unfold predict_with_ensemble.
  destruct (xgb_model_predict ensemble tab) as [xgb|]; [|discriminate].
  destruct (lstm_model_predict ensemble ts) as [lstm|]; [|discriminate].
  simpl. destruct (column_stack xgb lstm) as [feats|]; [|discriminate].
  simpl. destruct (meta_model_predict ensemble feats) as [final_pred|];
    [|discriminate].
  simpl. intros Heq. injection Heq as <-. exists final_pred. reflexivity.
Qed.

(** A successful prediction response holds, as its predicted values, the
    clamped forecast of the ensemble: one value per day of the horizon. *)
Lemma predict_inventory_Ok {Tabular TimeSeries : Type} (expm1 : Q → Q)
    (ensemble_predictor : option (StackedEnsemble Tabular TimeSeries))
    (db_loader : option DbLoader) today request response :
  predict_inventory expm1 ensemble_predictor db_loader today request
  = Ok response →
  ∃ final_pred : list Q,
    omap predicted (predictions response)
    = map (fun x => np_maximum0 (expm1 x))
        (forecast_sequence final_pred (Z.to_nat (lookahead_days request))).
Proof.
  unfold predict_inventory.
  destruct ensemble_predictor as [ensemble|]; [|discriminate].
  destruct db_loader as [get_sku_history|]; [|discriminate].
  destruct (get_sku_history _ _ _) as [historical_data|]; [|discriminate].
  destruct historical_data as [|row rows]; [discriminate|].
  cbn [mbind result_bind].
  destruct (prepare_data ensemble (row :: rows)) as [[tab ts]|];
    [|discriminate].
  cbn [mbind result_bind].
  destruct (predict_with_ensemble tab ts ensemble _) as [raw|] eqn:Hraw;
    [|discriminate].
  apply predict_with_ensemble_Ok in Hraw as [final_pred ->].
  cbn [mbind result_bind mret result_ret try_except].
  intros Heq. injection Heq as <-. exists final_pred.
  cbn [predictions]. apply response_predicted_values.
Qed.

(** The optimization endpoint on a successful prediction: it returns, and
    its runout date is the walk over the 30 clamped forecast values in day
    order. *)
Lemma get_optimization_analytics_Ok {Tabular TimeSeries : Type}
    (expm1 : Q → Q) (ensemble : StackedEnsemble Tabular TimeSeries)
    (db_loader : option DbLoader) today sku_id optimization response :
  predict_inventory expm1 (Some ensemble) db_loader today
    {| req_sku_id := sku_id; lookahead_days := 30; req_current_stock := None |}
  = Ok response →
  ∃ (final_pred : list Q) (r : OptimizationResponse),
    get_optimization_analytics expm1 (Some ensemble) db_loader today sku_id
      optimization = Ok r
    ∧ runout_date r
      = calculate_runout_date today (current_stock optimization)
          (map (fun x => np_maximum0 (expm1 x))
             (forecast_sequence final_pred 30)).
Proof.
  intros Hresp.
  destruct (predict_inventory_Ok _ _ _ _ _ _ Hresp) as [final_pred Hvalues].
  exists final_pred. unfold get_optimization_analytics.
  rewrite Hresp. cbn [mbind result_bind]. rewrite Hvalues.
  change (Z.to_nat (lookahead_days _)) with 30%nat.
  destruct (map (fun x => np_maximum0 (expm1 x))
              (forecast_sequence final_pred 30)) as [|p ps] eqn:E.
  - apply (f_equal length) in E.
    rewrite length_map, forecast_sequence_length in E. discriminate.
  - rewrite optimization_analysis_ok. eexists. split; reflexivity.
Qed.

(** An empty history reaches the caller of the optimization endpoint as a
    500 that quotes the 500 of the prediction endpoint, which quotes the
    404. *)
Example optimization_on_empty_history :
  get_optimization_analytics (fun x => x) (Some averaging_ensemble)
    (Some (fun _ _ _ => Ok [])) 739654 "invalid_sku_12345"
    {| current_stock := 100; perish_date := None; safety_buffer_days := 3 |}
  = Raise (HTTPException 500
      (FString "Optimization analysis failed: "
        (HTTPException 500
          (FString "Prediction failed: "
            (HTTPException 404
              (Text "No historical data found for SKU: invalid_sku_12345")))))).
Proof. reflexivity. Qed.

End EnsembleProofs.

(** ** [ml/ml_simple.py] *)

Module SimpleProofs.
Import Simple Samples.

Section WithCalendar.

Variables dt_dayofweek dt_month dt_day : Z → Z.

Local Abbreviation prepare_features := (prepare_features dt_dayofweek dt_month dt_day).
Local Abbreviation predict_inventory_simple :=
  (predict_inventory_simple dt_dayofweek dt_month dt_day).

(** An empty history: the 404 raised inside the [try] is caught by the
    handler of the same [try] and leaves as a 500. *)
Lemma empty_history_is_500 (model : Model) (db : DbLoader) today request :
  db (sku_id request) (today - 30) today = Ok [] →
  predict_inventory_simple (Some model) (Some db) today request
  = Raise (HTTPException 500
             (FString "Prediction failed: "
                (HTTPException 404
                   (Text ("No data found for SKU: " +:+ sku_id request))))).
Proof.
  intros Hdb. unfold Simple.predict_inventory_simple.
  rewrite Hdb. reflexivity.
Qed.

(** Without a model or without a loader the request is refused before the
    [try], and the 503 leaves as it is. *)
Lemma unavailable_is_503 (model : option Model) (db : option DbLoader)
    today request :
  model = None ∨ db = None →
  predict_inventory_simple model db today request
  = Raise (HTTPException 503 (Text "Model not available")).
Proof.
  intros [-> | ->]; [reflexivity|]. destruct model; reflexivity.
Qed.

Lemma prepare_features_lookup (data : list UsageRecord) i r :
  data !! i = Some r →
  ∃ f, prepare_features data !! i = Some f
    ∧ covers f = fillna 250 (rec_covers r)
    ∧ seasonality_factor f = fillna 1 (rec_seasonality_factor r)
    ∧ inventory_start f = fillna 0 (rec_inventory_start r)
    ∧ on_order_qty f = fillna 0 (rec_on_order_qty r)
    ∧ avg_daily_usage_7d f = fillna 0 (rec_avg_daily_usage_7d r)
    ∧ avg_daily_usage_28d f = fillna 0 (rec_avg_daily_usage_28d r)
    ∧ shelf_life_days f = fillna 30 (rec_shelf_life_days r)
    ∧ unit_cost f = fillna 1 (rec_unit_cost r)
    ∧ is_holiday f = fillna 0 (rec_is_holiday r)
    ∧ lead_time_days f = fillna 2 (rec_lead_time_days r).
Proof.
  intros Hr. unfold Simple.prepare_features.
  rewrite list_lookup_imap, Hr. simpl.
  eexists. split; [reflexivity|]. simpl. repeat split.
Qed.

Lemma prepare_features_length (data : list UsageRecord) :
  length (prepare_features data) = length data.
Proof. unfold Simple.prepare_features. apply length_imap. Qed.

Lemma forecast_loop_length model latest data today (H : Z) :
  length (forecast_loop model latest data today H) = Z.to_nat H.
Proof. unfold forecast_loop. rewrite length_map, length_seq. reflexivity. Qed.

Lemma forecast_loop_lookup model latest data today (H : Z) (i : nat) :
  (i < Z.to_nat H)%nat →
  forecast_loop model latest data today H !! i
  = Some {| date := today + (Z.of_nat i + 1);
            predicted := Some (predict_day model latest data);
            actual := None |}.
Proof.
  intros Hi. unfold forecast_loop.
  rewrite list_lookup_fmap, lookup_seq_lt by exact Hi. reflexivity.
Qed.

End WithCalendar.

(** C5, evaluated. A request for a SKU without history, with the model and
    the loader in place, does not leave as a 404: the [HTTPException(404)]
    raised inside the [try] is caught by its own [except Exception] and the
    caller receives status 500, the 404 and its message (with the sku_id)
    quoted inside the detail. *)
Theorem empty_history_leaves_as_500 :
  let request := {| sku_id := "invalid_sku_12345"; lookahead_days := 7 |} in
  let response :=
    predict_inventory_simple sample_dayofweek sample_month sample_day
      (Some constant_model) (Some empty_db) 739654 request in
  response
  = Raise (HTTPException 500
             (FString "Prediction failed: "
                (HTTPException 404
                   (Text "No data found for SKU: invalid_sku_12345"))))
  ∧ status_of response = Some 500
  ∧ status_of response ≠ Some 404.
Proof.
  split; [|split].
  - apply (empty_history_is_500 sample_dayofweek sample_month sample_day).
    reflexivity.
  - reflexivity.
  - discriminate.
Qed.

(** C6, as the code has it. When the model call of a forecast day raises,
    nothing is propagated and nothing is retried: the loop still yields one
    point per day of the horizon, and the prediction of each such day is the
    average of [qty_used] (nulls as 0) over the last 7 history rows.  When
    the model is unavailable the request is refused with status 503 and no
    fallback value is produced. *)
Theorem prediction_failure_falls_back (dt_dayofweek dt_month dt_day : Z → Z)
    (model : Model) (latest_features : FeatureRow) (data : list UsageRecord)
    (today H : Z) (e : Exception) :
  model latest_features = Raise e →
  length (forecast_loop model latest_features data today H) = Z.to_nat H
  ∧ Forall (fun pt => predicted pt = Some (trailing_average data))
      (forecast_loop model latest_features data today H)
  ∧ (∀ (db : option DbLoader) request,
       predict_inventory_simple dt_dayofweek dt_month dt_day None db today
         request
       = Raise (HTTPException 503 (Text "Model not available"))).
Proof.
  intros Hraise. split; [apply forecast_loop_length|]. split.
  - apply Forall_lookup. intros i pt Hpt.
    assert (Hi : (i < Z.to_nat H)%nat).
    { apply lookup_lt_Some in Hpt. rewrite forecast_loop_length in Hpt.
      exact Hpt. }
    rewrite forecast_loop_lookup in Hpt by exact Hi.
    injection Hpt as <-. simpl. unfold predict_day. rewrite Hraise.
    reflexivity.
  - intros db request. apply unavailable_is_503. left. reflexivity.
Qed.

Lemma prediction_failure_falls_back_witness :
  length (forecast_loop failing_model
            (latest_features_of sample_history) sample_history 739654 2)
  = Z.to_nat 2
  ∧ Forall (fun pt => predicted pt = Some (trailing_average sample_history))
      (forecast_loop failing_model
         (latest_features_of sample_history) sample_history 739654 2)
  ∧ (∀ (db : option DbLoader) request,
       predict_inventory_simple sample_dayofweek sample_month sample_day
         None db 739654 request
       = Raise (HTTPException 503 (Text "Model not available"))).
Proof.
  apply (prediction_failure_falls_back sample_dayofweek sample_month
           sample_day failing_model (latest_features_of sample_history)
           sample_history 739654 2 (PythonError "feature shape mismatch")).
  reflexivity.
Defined.

(** C6, as stated, fails. The model is configured and its call raises on
    the latest feature row; the two forecast days are still produced, each
    with the trailing average (3 + 5) / 2 as its prediction. *)
Lemma prediction_failure_counterexample :
  let latest_features := latest_features_of sample_history in
  failing_model latest_features
  = Raise (PythonError "feature shape mismatch")
  ∧ forecast_loop failing_model latest_features sample_history 739654 2
    = [ {| date := 739655; predicted := Some (trailing_average sample_history);
           actual := None |};
        {| date := 739656; predicted := Some (trailing_average sample_history);
           actual := None |} ]
  ∧ (trailing_average sample_history == 4)%Q.
Proof.
  split; [reflexivity|]. split; reflexivity.
Qed.

End SimpleProofs.

(** ** [ml/src/data_processing/database_loader.py] *)

Module LoaderProofs.
Import Loader Samples.

Lemma ensure_default_nrows df entry :
  nrows (ensure_default df entry) = nrows df.
Proof.
  destruct entry as [col d]. unfold ensure_default.
  destruct (columns df !! col); reflexivity.
Qed.

Lemma ensure_default_other df col' d' col :
  col' ≠ col →
  columns (ensure_default df (col', d')) !! col = columns df !! col.
Proof.
  intros Hne. unfold ensure_default.
  destruct (columns df !! col'); simpl; apply lookup_insert_ne; exact Hne.
Qed.

Lemma ensure_default_same df col d i :
  (i < nrows df)%nat → fillable df col i d →
  cell (ensure_default df (col, d)) col i = Some (Some d).
Proof.
  intros Hi Hfill. unfold fillable in Hfill. unfold ensure_default, cell.
  destruct (columns df !! col) as [series|] eqn:E; simpl;
    rewrite lookup_insert_eq; simpl.
  - rewrite list_lookup_fmap.
    destruct Hfill as [-> | ->]; reflexivity.
  - apply lookup_replicate_2. exact Hi.
Qed.

Lemma fold_ensure_default_nrows (l : list (string * Q)) : ∀ df,
  nrows (fold_left ensure_default l df) = nrows df.
Proof.
  induction l as [|e l IH]; intros df; [reflexivity|].
  cbn [fold_left]. rewrite IH. apply ensure_default_nrows.
Qed.

Lemma fold_ensure_default_other (l : list (string * Q)) col : ∀ df,
  col ∉ l.*1 →
  columns (fold_left ensure_default l df) !! col = columns df !! col.
Proof.
  induction l as [|[col' d'] l IH]; intros df Hnotin; [reflexivity|].
  rewrite fmap_cons in Hnotin. cbn [fold_left fst] in *.
  apply not_elem_of_cons in Hnotin as [Hne Hnotin].
  rewrite IH by exact Hnotin. apply ensure_default_other. congruence.
Qed.

(** The loop over a table without repeated keys fills the cell of each of
    its entries. *)
Lemma fold_ensure_default_fills (l : list (string * Q)) col d i : ∀ df,
  NoDup l.*1 → (col, d) ∈ l → (i < nrows df)%nat → fillable df col i d →
  cell (fold_left ensure_default l df) col i = Some (Some d).
Proof.
  induction l as [|[col' d'] l IH]; intros df Hnd Hin Hi Hfill.
  - apply elem_of_nil in Hin. destruct Hin.
  - rewrite fmap_cons in Hnd. apply NoDup_cons in Hnd as [Hfresh Hnd].
    cbn [fold_left fst] in *.
    apply elem_of_cons in Hin as [Heq | Hin].
    + injection Heq as <- <-.
      unfold cell. rewrite fold_ensure_default_other by exact Hfresh.
      apply ensure_default_same; assumption.
    + assert (Hne : col' ≠ col).
      { intros ->. apply Hfresh.
        apply (list_elem_of_fmap_2 fst l (col, d)). exact Hin. }
      apply IH; [exact Hnd|exact Hin| |].
      * rewrite ensure_default_nrows. exact Hi.
      * unfold fillable. rewrite ensure_default_other by exact Hne.
        exact Hfill.
Qed.

Lemma numeric_defaults_NoDup : NoDup numeric_defaults.*1.
Proof. apply (bool_decide_unpack _). vm_compute. exact I. Qed.

Lemma documented_in_numeric_defaults entry :
  entry ∈ documented_defaults → entry ∈ numeric_defaults.
Proof.
  unfold documented_defaults, numeric_defaults. intros H.
  repeat (apply elem_of_cons in H as [-> | H]);
    [repeat (first [apply list_elem_of_here | apply list_elem_of_further]) ..|].
  apply elem_of_nil in H. destruct H.
Qed.

Lemma add_if_missing_nrows col v df :
  nrows (add_if_missing col v df) = nrows df.
Proof. unfold add_if_missing. destruct (columns df !! col); reflexivity. Qed.

Lemma add_if_missing_other col' v df col :
  col' ≠ col →
  columns (add_if_missing col' v df) !! col = columns df !! col.
Proof.
  intros Hne. unfold add_if_missing.
  destruct (columns df !! col'); simpl; [reflexivity|].
  apply lookup_insert_ne. exact Hne.
Qed.

Lemma add_if_missing_fillable col v df i :
  (i < nrows df)%nat → null_at df col i →
  fillable (add_if_missing col v df) col i v.
Proof.
  intros Hi Hnull. unfold fillable, add_if_missing. unfold null_at in Hnull.
  destruct (columns df !! col) as [series|] eqn:E.
  - rewrite E. left. exact Hnull.
  - simpl. rewrite lookup_insert_eq. right.
    apply lookup_replicate_2. exact Hi.
Qed.

Lemma rename_column_nrows old new df :
  nrows (rename_column old new df) = nrows df.
Proof. unfold rename_column. destruct (columns df !! old); reflexivity. Qed.

Lemma rename_column_other old new df col :
  old ≠ col → new ≠ col →
  columns (rename_column old new df) !! col = columns df !! col.
Proof.
  intros Hold Hnew. unfold rename_column.
  destruct (columns df !! old); simpl; [|reflexivity].
  rewrite lookup_insert_ne by exact Hnew.
  apply lookup_delete_ne. exact Hold.
Qed.

Lemma null_at_fillable df col i d : null_at df col i → fillable df col i d.
Proof.
  unfold null_at, fillable.
  destruct (columns df !! col); [intros H; left; exact H|intros _; exact I].
Qed.

Lemma fillable_same_column df df' col i d :
  columns df' !! col = columns df !! col →
  fillable df col i d → fillable df' col i d.
Proof. unfold fillable. intros ->. intros H; exact H. Qed.

Lemma null_at_same_column df df' col i :
  columns df' !! col = columns df !! col →
  null_at df col i → null_at df' col i.
Proof. unfold null_at. intros ->. intros H; exact H. Qed.

(** The frame before the loop over [numeric_defaults]. *)
Lemma before_loop_fillable df col d i :
  (col, d) ∈ documented_defaults → (i < nrows df)%nat → null_at df col i →
  fillable
    (rename_column "revenue_items_using" "revenue_items_using_ing"
       (rename_column "units_sold_items_using" "units_sold_items_using_ing"
          (add_if_missing "lead_time_days" 2
             (add_if_missing "is_holiday" 0 df)))) col i d.
Proof.
  intros Hin Hi Hnull. unfold documented_defaults in Hin.
  repeat (apply elem_of_cons in Hin as [Heq | Hin];
          [injection Heq as -> ->;
           apply (fillable_same_column
                    (add_if_missing "lead_time_days" 2
                       (add_if_missing "is_holiday" 0 df)));
           [rewrite !rename_column_other by discriminate; reflexivity|]|]).
  1-8: apply null_at_fillable;
       apply (null_at_same_column df); [|exact Hnull];
       rewrite !add_if_missing_other by discriminate; reflexivity.
  - apply (fillable_same_column (add_if_missing "is_holiday" 0 df));
      [apply add_if_missing_other; discriminate|].
    apply add_if_missing_fillable; assumption.
  - apply add_if_missing_fillable.
    + rewrite add_if_missing_nrows. exact Hi.
    + apply (null_at_same_column df); [|exact Hnull].
      apply add_if_missing_other. discriminate.
  - apply elem_of_nil in Hin. destruct Hin.
Qed.

(** Every column of the default table holds its default wherever the
    incoming frame had no value. *)
Lemma add_derived_features_fills df col d i :
  (col, d) ∈ documented_defaults → (i < nrows df)%nat → null_at df col i →
  cell (_add_derived_features df) col i = Some (Some d).
Proof.
  intros Hin Hi Hnull. unfold _add_derived_features.
  apply fold_ensure_default_fills.
  - exact numeric_defaults_NoDup.
  - apply documented_in_numeric_defaults. exact Hin.
  - rewrite !rename_column_nrows, !add_if_missing_nrows. exact Hi.
  - apply before_loop_fillable; assumption.
Qed.

End LoaderProofs.

(** ** The feature default table *)

Module FeatureBuilder.
Import Simple Loader Samples.

(** C8. A feature row built from a history row whose optional fields are
    all null carries the documented default in every listed column:
    covers=250, seasonality_factor=1.0, inventory_start=0, on_order_qty=0,
    avg_daily_usage_7d=0, avg_daily_usage_28d=0, shelf_life_days=30,
    unit_cost=1.0, is_holiday=0, lead_time_days=2.  The loader fills the
    same values into every cell of these columns that is null or whose
    column is missing. *)
Theorem feature_defaults (dt_dayofweek dt_month dt_day : Z → Z)
    (data : list UsageRecord) (i : nat) (r : UsageRecord)
    (df : Frame) (j : nat) :
  data !! i = Some r → all_null r →
  (j < nrows df)%nat →
  (∀ col d, (col, d) ∈ documented_defaults → null_at df col j) →
  (∃ f : FeatureRow,
     prepare_features dt_dayofweek dt_month dt_day data !! i = Some f
     ∧ has_documented_defaults f)
  ∧ (∀ col d, (col, d) ∈ documented_defaults →
       cell (_add_derived_features df) col j = Some (Some d)).
Proof.
  intros Hr Hnull Hj Hdf. split.
  - destruct (SimpleProofs.prepare_features_lookup dt_dayofweek dt_month
                dt_day data i r Hr)
      as (f & Hf & H1 & H2 & H3 & H4 & H5 & H6 & H7 & H8 & H9 & H10).
    exists f. split; [exact Hf|].
    destruct Hnull as (N1 & N2 & N3 & _ & N4 & N5 & N6 & N7 & N8 & N9 & N10).
    unfold has_documented_defaults.
    rewrite H1, H2, H3, H4, H5, H6, H7, H8, H9, H10.
    rewrite N1, N2, N3, N4, N5, N6, N7, N8, N9, N10.
    repeat split.
  - intros col d Hin.
    apply LoaderProofs.add_derived_features_fills;
      [exact Hin|exact Hj|exact (Hdf col d Hin)].
Qed.

Lemma feature_defaults_witness :
  (∃ f : FeatureRow,
     prepare_features sample_dayofweek sample_month sample_day
       [null_record 739654] !! 0%nat = Some f
     ∧ has_documented_defaults f)
  ∧ (∀ col d, (col, d) ∈ documented_defaults →
       cell (_add_derived_features sample_frame) col 0 = Some (Some d)).
Proof.
  apply (feature_defaults sample_dayofweek sample_month sample_day
           [null_record 739654] 0 (null_record 739654) sample_frame 0).
  - reflexivity.
  - unfold all_null. simpl. repeat split.
  - simpl. lia.
  - intros col d Hin. unfold documented_defaults in Hin.
    repeat (apply elem_of_cons in Hin as [Heq | Hin];
            [injection Heq as -> ->; vm_compute; reflexivity|]).
    apply elem_of_nil in Hin. destruct Hin.
Defined.

End FeatureBuilder.

(** * Further properties of the code *)

(** ** Sorting by date *)







(** ** The optimization advisor *)

Module AdvisorFacts.
Import Ensemble Samples EnsembleProofs.

Lemma fold_left_Qplus_ge (l : list Q) : ∀ acc : Q,
  Forall (fun d => 0 <= d)%Q l → (acc <= fold_left Qplus l acc)%Q.
Proof.
  induction l as [|x rest IH]; intros acc Hl; cbn [fold_left].
  - apply Qle_refl.
  - apply Forall_cons in Hl as [Hx Hrest].
    eapply Qle_trans; [|apply IH; exact Hrest]. lra.
Qed.

Lemma fold_left_Qplus_take_mono (l : list Q) : ∀ (acc : Q) (j k : nat),
  Forall (fun d => 0 <= d)%Q l → (j ≤ k)%nat →
  (fold_left Qplus (take j l) acc <= fold_left Qplus (take k l) acc)%Q.
Proof.
  induction l as [|x rest IH]; intros acc j k Hl Hjk.
  - rewrite !take_nil. apply Qle_refl.
  - destruct j as [|j].
    + rewrite take_0. cbn [fold_left].
      apply fold_left_Qplus_ge. apply Forall_take. exact Hl.
    + destruct k as [|k]; [lia|]. cbn [take fold_left].
      apply Forall_cons in Hl as [_ Hrest]. apply IH; [exact Hrest|lia].
Qed.

(** With non-negative daily predictions the running total never falls. *)
Lemma cumulative_mono (predictions : list Q) (j k : nat) :
  Forall (fun d => 0 <= d)%Q predictions → (j ≤ k)%nat →
  (cumulative predictions j <= cumulative predictions k)%Q.
Proof. intros. apply fold_left_Qplus_take_mono; assumption. Qed.

Lemma cumulative_all (predictions : list Q) (k : nat) :
  (length predictions ≤ k)%nat → cumulative predictions k = py_sum predictions.
Proof. intros H. unfold cumulative. rewrite take_ge by exact H. reflexivity. Qed.

(** The days until runout, when there is a runout date, lie between 1 and
    the number of forecast days: the runout is never today, and never
    beyond the horizon. *)
Theorem days_until_runout_bounds today (stock : Q) (predictions : list Q) :
  match calculate_days_until_runout today
          (calculate_runout_date today stock predictions) with
  | Some d =>
      1 <= d <= Z.of_nat (length predictions)
      ∧ calculate_runout_date today stock predictions = Some (today + d)
  | None => calculate_runout_date today stock predictions = None
  end.
Proof.
  pose proof (calculate_runout_date_spec today stock predictions) as H.
  destruct (calculate_runout_date today stock predictions) as [d|];
    [|reflexivity].
  destruct H as (i & Hi & -> & _). unfold forecast_date. simpl.
  split; [lia|]. f_equal. lia.
Qed.

(** The advice "Increase safety buffer - excess inventory detected" needs
    at least 30 days until runout, and the runout lies within the forecast:
    on the 30 forecast days the endpoint uses, it is given only when the
    stock runs out exactly on the last forecast day. *)
Theorem excess_inventory_only_on_last_day today sku_id optimization
    (p : Q) (ps : list Q) (r : OptimizationResponse) :
  length (p :: ps) = 30%nat →
  optimization_analysis today sku_id optimization (p :: ps) = Ok r →
  suggested_action r = "Increase safety buffer - excess inventory detected" →
  runout_date r = Some (today + 30)
  ∧ det_days_until_runout (details r) = Some 30
  ∧ waste_risk r = false
  ∧ safety_buffer_days optimization + 3 < 30.
Proof.
  intros Hlen Hr Haction.
  rewrite optimization_analysis_ok in Hr. injection Hr as <-.
  cbn [runout_date det_days_until_runout details waste_risk suggested_action]
    in *.
  pose proof (days_until_runout_bounds today (current_stock optimization)
                (p :: ps)) as Hb.
  unfold _generate_action_suggestion in Haction.
  destruct (calculate_waste_risk _ _ _ _); [discriminate|].
  destruct (calculate_days_until_runout _ _) as [d|]; [|discriminate].
  destruct Hb as [[Hd1 Hd2] Hrun]. rewrite Hlen in Hd2.
  destruct (d <=? safety_buffer_days optimization) eqn:E1; [discriminate|].
  destruct (d <=? safety_buffer_days optimization + 3) eqn:E2;
    [discriminate|].
  destruct (30 <=? d) eqn:E3; [|discriminate].
  apply Z.leb_le in E3. apply Z.leb_gt in E2.
  assert (d = 30) as -> by lia.
  rewrite Hrun. repeat split; lia.
Qed.

Lemma excess_inventory_only_on_last_day_witness :
  ∃ r : OptimizationResponse,
    optimization_analysis 739654 "1"
      {| current_stock := 30; perish_date := None; safety_buffer_days := 3 |}
      (replicate 30 (1 : Q)) = Ok r
    ∧ suggested_action r
      = "Increase safety buffer - excess inventory detected"
    ∧ runout_date r = Some (739654 + 30)
    ∧ det_days_until_runout (details r) = Some 30
    ∧ waste_risk r = false
    ∧ 3 + 3 < 30.
Proof.
  eexists. split; [vm_compute; reflexivity|]. split; [reflexivity|].
  apply (excess_inventory_only_on_last_day 739654 "1"
           {| current_stock := 30; perish_date := None;
              safety_buffer_days := 3 |} 1 (replicate 29 (1 : Q))).
  - reflexivity.
  - vm_compute. reflexivity.
  - reflexivity.
Defined.

(** With non-negative daily predictions, a flagged waste risk means the
    stock outlasts the perish date: any runout date lies strictly after
    it. *)
Theorem waste_risk_runout_after_perish today (stock : Q) (perish : Z)
    (predictions : list Q) :
  Forall (fun d => 0 <= d)%Q predictions →
  calculate_waste_risk today stock (Some perish) predictions = true →
  match calculate_runout_date today stock predictions with
  | Some runout => perish < runout
  | None => True
  end.
Proof.
  intros Hnn Hwaste. unfold calculate_waste_risk in Hwaste.
  destruct (0 <? perish - today) eqn:E; [|discriminate].
  apply Z.ltb_lt in E. apply Qltb_lt in Hwaste.
  pose proof (calculate_runout_date_spec today stock predictions) as H.
  destruct (calculate_runout_date today stock predictions) as [d|];
    [|exact I].
  destruct H as (i & Hi & -> & Hge & _). unfold forecast_date.
  destruct (decide (Z.to_nat (perish - today) ≤ i)%nat) as [Hle|Hgt]; [lia|].
  exfalso. apply (Qlt_irrefl stock).
  eapply Qle_lt_trans; [exact Hge|].
  eapply Qle_lt_trans; [|exact Hwaste].
  apply cumulative_mono; [exact Hnn|lia].
Qed.

Lemma waste_risk_runout_after_perish_witness :
  match calculate_runout_date 739654 50 [10; 10; 10; 10; 10; 10]%Q with
  | Some runout => 739654 + 3 < runout
  | None => True
  end.
Proof.
  apply (waste_risk_runout_after_perish 739654 50 (739654 + 3)
           [10; 10; 10; 10; 10; 10]%Q).
  - repeat constructor; discriminate.
  - reflexivity.
Defined.

(** With non-negative daily predictions there is no runout date exactly
    when the whole forecast sums to less than the stock. *)
Theorem no_runout_iff_total_below_stock today (stock : Q)
    (p : Q) (ps : list Q) :
  Forall (fun d => 0 <= d)%Q (p :: ps) →
  calculate_runout_date today stock (p :: ps) = None
  ↔ (py_sum (p :: ps) < stock)%Q.
Proof.
  intros Hnn.
  pose proof (calculate_runout_date_spec today stock (p :: ps)) as H.
  destruct (calculate_runout_date today stock (p :: ps)) as [d|]; split.
  - discriminate.
  - intros Hlt. exfalso. destruct H as (i & Hi & _ & Hge & _).
    apply (Qlt_irrefl stock).
    eapply Qle_lt_trans; [exact Hge|].
    eapply Qle_lt_trans; [|exact Hlt].
    rewrite <- (cumulative_all (p :: ps) (length (p :: ps))) by lia.
    apply cumulative_mono; [exact Hnn|lia].
  - intros _. specialize (H (length ps)).
    rewrite cumulative_all in H by (simpl; lia). apply H. simpl. lia.
  - reflexivity.
Qed.

Lemma no_runout_iff_total_below_stock_witness :
  calculate_runout_date 739654 100 [20; 30; 40]%Q = None
  ↔ (py_sum [20; 30; 40]%Q < 100)%Q.
Proof.
  apply (no_runout_iff_total_below_stock 739654 100 20 [30; 40]%Q).
  repeat constructor; discriminate.
Defined.

End AdvisorFacts.

(** ** Coverage days, the decay of the forecast and the peak day *)

Module ForecastFacts.
Import Ensemble Samples EnsembleProofs.




Lemma py_max0_mono (x y : Q) : (x <= y)%Q → (py_max0 x <= py_max0 y)%Q.
Proof.
  intros Hxy. unfold py_max0.
  destruct (Qltb 0 x) eqn:Ex; destruct (Qltb 0 y) eqn:Ey.
  - exact Hxy.
  - apply Qltb_lt in Ex. apply Qltb_ge in Ey. lra.
  - apply Qltb_lt in Ey. lra.
  - apply Qle_refl.
Qed.

Lemma py_max0_nonpos (x : Q) : (x <= 0)%Q → py_max0 x = 0%Q.
Proof.
  intros Hx. unfold py_max0. destruct (Qltb 0 x) eqn:E; [|reflexivity].
  apply Qltb_lt in E. lra.
Qed.

Lemma py_max0_pos (x : Q) : (0 < x)%Q → py_max0 x = x.
Proof.
  intros Hx. unfold py_max0. apply Qltb_lt in Hx. rewrite Hx. reflexivity.
Qed.

Lemma decay_factor_order (i j : nat) :
  (i ≤ j)%nat →
  (1 - inject_Z (Z.of_nat j) * (2 # 100)
   <= 1 - inject_Z (Z.of_nat i) * (2 # 100))%Q.
Proof.
  intros Hij.
  assert (H : (inject_Z (Z.of_nat i) <= inject_Z (Z.of_nat j))%Q).
  { rewrite <- Zle_Qle. lia. }
  lra.
Qed.

Lemma decay_factor_nonpos (i : nat) :
  (50 ≤ i)%nat → (1 - inject_Z (Z.of_nat i) * (2 # 100) <= 0)%Q.
Proof.
  intros Hi.
  assert (H : (inject_Z 50 <= inject_Z (Z.of_nat i))%Q).
  { rewrite <- Zle_Qle. lia. }
  change (inject_Z 50) with 50%Q in H. lra.
Qed.

Lemma decay_factor_neg (i : nat) :
  (50 < i)%nat → (1 - inject_Z (Z.of_nat i) * (2 # 100) < 0)%Q.
Proof.
  intros Hi.
  assert (H : (inject_Z 51 <= inject_Z (Z.of_nat i))%Q).
  { rewrite <- Zle_Qle. lia. }
  change (inject_Z 51) with 51%Q in H. lra.
Qed.

Lemma decay_factor_nonneg (i : nat) :
  (i ≤ 50)%nat → (0 <= 1 - inject_Z (Z.of_nat i) * (2 # 100))%Q.
Proof.
  intros Hi.
  assert (H : (inject_Z (Z.of_nat i) <= inject_Z 50)%Q).
  { rewrite <- Zle_Qle. lia. }
  change (inject_Z 50) with 50%Q in H. lra.
Qed.

Lemma forecast_sequence_lookup_inv (final_pred : list Q) (H i : nat) (x : Q) :
  forecast_sequence final_pred H !! i = Some x →
  (i < H)%nat ∧ x = linear_decay (point_estimate final_pred) i.
Proof.
  intros Hx.
  assert (Hi : (i < H)%nat).
  { apply lookup_lt_Some in Hx. rewrite forecast_sequence_length in Hx.
    exact Hx. }
  rewrite forecast_sequence_lookup in Hx by exact Hi.
  injection Hx as <-. split; [exact Hi|reflexivity].
Qed.

(** For a non-negative point estimate the forecast never rises from one
    day to the next, and it is 0 from the 51st forecast day (index 50) on:
    the decay factor [1 - 0.02 * i] has reached 0 there. *)
Theorem forecast_decays_to_zero (final_pred : list Q) (H : nat) :
  (0 <= point_estimate final_pred)%Q →
  (∀ (i j : nat) (x y : Q),
     (i ≤ j)%nat →
     forecast_sequence final_pred H !! i = Some x →
     forecast_sequence final_pred H !! j = Some y → (y <= x)%Q)
  ∧ (∀ (i : nat) (x : Q),
       (50 ≤ i)%nat → forecast_sequence final_pred H !! i = Some x →
       x = 0%Q).
Proof.
  intros Hest. split.
  - intros i j x y Hij Hx Hy.
    apply forecast_sequence_lookup_inv in Hx as [_ ->].
    apply forecast_sequence_lookup_inv in Hy as [_ ->].
    unfold linear_decay. apply py_max0_mono.
    rewrite !(Qmult_comm (point_estimate final_pred)).
    apply Qmult_le_compat_r; [apply decay_factor_order; exact Hij|exact Hest].
  - intros i x Hi Hx.
    apply forecast_sequence_lookup_inv in Hx as [_ ->].
    unfold linear_decay. apply py_max0_nonpos.
    pose proof (decay_factor_nonpos i Hi) as Hd.
    rewrite Qmult_comm.
    eapply Qle_trans;
      [apply Qmult_le_compat_r; [exact Hd|exact Hest]|].
    rewrite Qmult_0_l. apply Qle_refl.
Qed.

Lemma forecast_decays_to_zero_witness :
  (∀ (i j : nat) (x y : Q),
     (i ≤ j)%nat →
     forecast_sequence [4%Q] 90 !! i = Some x →
     forecast_sequence [4%Q] 90 !! j = Some y → (y <= x)%Q)
  ∧ (∀ (i : nat) (x : Q),
       (50 ≤ i)%nat → forecast_sequence [4%Q] 90 !! i = Some x → x = 0%Q).
Proof.
  apply (forecast_decays_to_zero [4%Q] 90). discriminate.
Defined.

(** For a negative point estimate the clamp gives 0 up to index 50, and
    after it the negative decay factor turns the estimate into a positive
    forecast. *)
Theorem negative_estimate_turns_positive (final_pred : list Q) (H : nat) :
  (point_estimate final_pred < 0)%Q →
  ∀ (i : nat) (x : Q),
    forecast_sequence final_pred H !! i = Some x →
    ((i ≤ 50)%nat → x = 0%Q) ∧ ((50 < i)%nat → (0 < x)%Q).
Proof.
  intros Hest i x Hx.
  apply forecast_sequence_lookup_inv in Hx as [_ ->].
  unfold linear_decay. split; intros Hi.
  - apply py_max0_nonpos.
    pose proof (decay_factor_nonneg i Hi) as Hd.
    eapply Qle_trans;
      [apply Qmult_le_compat_r; [apply Qlt_le_weak; exact Hest|exact Hd]|].
    rewrite Qmult_0_l. apply Qle_refl.
  - pose proof (decay_factor_neg i Hi) as Hd.
    assert (Hpos : (0 < point_estimate final_pred
                        * (1 - inject_Z (Z.of_nat i) * (2 # 100)))%Q).
    { assert (E : ((- point_estimate final_pred)
                   * - (1 - inject_Z (Z.of_nat i) * (2 # 100))
                   == point_estimate final_pred
                      * (1 - inject_Z (Z.of_nat i) * (2 # 100)))%Q) by ring.
      rewrite <- E. apply Qmult_lt_0_compat; lra. }
    rewrite py_max0_pos by exact Hpos. exact Hpos.
Qed.

Lemma negative_estimate_turns_positive_witness :
  ∃ x : Q,
    forecast_sequence [(-1)%Q] 90 !! 60%nat = Some x
    ∧ ((60 ≤ 50)%nat → x = 0%Q) ∧ ((50 < 60)%nat → (0 < x)%Q).
Proof.
  eexists. split; [reflexivity|].
  apply (negative_estimate_turns_positive [(-1)%Q] 90); reflexivity.
Defined.

End ForecastFacts.

(** ** The prediction response of the ensemble router *)

Module ResponseFacts.
Import Ensemble Samples EnsembleProofs.

(** The scan for the maximum, entered at index [i] with the best value so
    far found at [besti]. *)
Lemma argmax_from_spec (all : list Q) (rest : list Q) :
  ∀ (best : Q) (besti i : nat),
    drop i all = rest →
    (besti < i)%nat → all !! besti = Some best →
    (∀ j x, (j < i)%nat → all !! j = Some x →
       (x <= best)%Q ∧ ((j < besti)%nat → (x < best)%Q)) →
    let k := argmax_from best besti i rest in
    ∃ v : Q, all !! k = Some v
      ∧ ∀ j x, all !! j = Some x →
          (x <= v)%Q ∧ ((j < k)%nat → (x < v)%Q).
Proof.
  induction rest as [|y rest IH]; intros best besti i Hdrop Hbi Hbest Hinv.
  - cbn [argmax_from]. exists best. split; [exact Hbest|].
    intros j x Hx. apply Hinv; [|exact Hx].
    apply lookup_lt_Some in Hx.
    assert (length (drop i all) = 0%nat) as Hlen by (rewrite Hdrop; reflexivity).
    rewrite length_drop in Hlen. lia.
  - assert (Hy : all !! i = Some y).
    { pose proof (lookup_drop all i 0) as E.
      rewrite Hdrop, Nat.add_0_r in E. symmetry. exact E. }
    assert (Hnext : drop (S i) all = rest).
    { pose proof (drop_S all y i Hy) as E. rewrite Hdrop in E.
      injection E as <-. reflexivity. }
    cbn [argmax_from]. destruct (Qltb best y) eqn:E.
    + apply Qltb_lt in E. apply IH; [exact Hnext|lia|exact Hy|].
      intros j x Hj Hx. destruct (decide (j = i)) as [->|Hne].
      * rewrite Hy in Hx. injection Hx as <-.
        split; [apply Qle_refl|lia].
      * destruct (Hinv j x ltac:(lia) Hx) as [Hle _].
        split; [lra|]. intros _. lra.
    + apply Qltb_ge in E. apply IH; [exact Hnext|lia|exact Hbest|].
      intros j x Hj Hx. destruct (decide (j = i)) as [->|Hne].
      * rewrite Hy in Hx. injection Hx as <-. split; [exact E|lia].
      * apply Hinv; [lia|exact Hx].
Qed.

(** [peak_consumption_day] is a valid day of the horizon, counted from 1,
    and it is the first day whose forecast is the largest one. *)
Theorem peak_consumption_day_is_first_maximum (p : Q) (ps : list Q) :
  let predictions := p :: ps in
  let peak_consumption_day := Z.of_nat (np_argmax predictions) + 1 in
  1 <= peak_consumption_day <= Z.of_nat (length predictions)
  ∧ ∃ v : Q, predictions !! np_argmax predictions = Some v
      ∧ ∀ (j : nat) (x : Q), predictions !! j = Some x →
          (x <= v)%Q ∧ ((j < np_argmax predictions)%nat → (x < v)%Q).
Proof.
  intros predictions peak_consumption_day.
  destruct (argmax_from_spec predictions ps p 0 1) as (v & Hv & Hmax).
  - reflexivity.
  - lia.
  - reflexivity.
  - intros j x Hj Hx. assert (j = 0%nat) as -> by lia.
    injection Hx as <-. split; [apply Qle_refl|lia].
  - change (argmax_from p 0 1 ps) with (np_argmax predictions) in *.
    split.
    + apply lookup_lt_Some in Hv. unfold peak_consumption_day. lia.
    + exists v. split; [exact Hv|exact Hmax].
Qed.



(** Whatever goes wrong, the two endpoints answer 503 only for the check
    made before the [try] and 500 for everything else; a 404 never leaves.
    The optimization endpoint checks the predictor only, so a missing
    database loader reaches its caller as a 500 that quotes the 503. *)
Theorem ensemble_router_statuses {Tabular TimeSeries : Type} (expm1 : Q → Q)
    (ensemble_predictor : option (StackedEnsemble Tabular TimeSeries))
    (ensemble : StackedEnsemble Tabular TimeSeries)
    (db_loader : option DbLoader) (today : Z) request sku_id optimization :
  match predict_inventory expm1 ensemble_predictor db_loader today request with
  | Ok _ => True
  | Raise e =>
      e = HTTPException 503 (Text "Models not loaded")
      ∨ ∃ cause, e = HTTPException 500 (FString "Prediction failed: " cause)
  end
  ∧ match get_optimization_analytics expm1 ensemble_predictor db_loader today
            sku_id optimization with
    | Ok _ => True
    | Raise e =>
        e = HTTPException 503 (Text "Models not loaded")
        ∨ ∃ cause,
            e = HTTPException 500
                  (FString "Optimization analysis failed: " cause)
    end
  ∧ get_optimization_analytics expm1 (Some ensemble) None today sku_id
      optimization
    = Raise (HTTPException 500
               (FString "Optimization analysis failed: "
                  (HTTPException 503 (Text "Models not loaded")))).
Proof.
  split; [|split].
  - unfold predict_inventory.
    destruct ensemble_predictor as [ens|]; [|left; reflexivity].
    destruct db_loader as [db|]; [|left; reflexivity].
    match goal with |- context [try_except ?body _] =>
      destruct body as [resp|e] end; cbn [try_except]; [exact I|].
    right. exists e. reflexivity.
  - unfold get_optimization_analytics.
    destruct ensemble_predictor as [ens|]; [|left; reflexivity].
    match goal with |- context [try_except ?body _] =>
      destruct body as [resp|e] end; cbn [try_except]; [exact I|].
    right. exists e. reflexivity.
  - reflexivity.
Qed.

End ResponseFacts.

(** ** The XGBoost endpoint of [ml_simple.py] *)

Module SimpleFacts.
Import Simple SimpleReadings Samples SimpleProofs.

Section WithCalendar.

Variables dt_dayofweek dt_month dt_day : Z → Z.

Local Abbreviation prepare_features :=
  (prepare_features dt_dayofweek dt_month dt_day).
Local Abbreviation predict_inventory_simple :=
  (predict_inventory_simple dt_dayofweek dt_month dt_day).

(** The endpoint answers 503 only when the model or the loader is missing
    and 500 for every other failure, a failing store included; the 404 and
    the 422 it raises inside the [try] never leave as such. *)
Theorem simple_router_statuses (xgboost_model : option Model)
    (db_loader : option DbLoader) (model : Model) (db : DbLoader)
    (today : Z) request (e : Exception) :
  match predict_inventory_simple xgboost_model db_loader today request with
  | Ok _ => True
  | Raise err =>
      (err = HTTPException 503 (Text "Model not available")
       ∧ (xgboost_model = None ∨ db_loader = None))
      ∨ ∃ cause, err = HTTPException 500 (FString "Prediction failed: " cause)
  end
  ∧ (db (sku_id request) (today - 30) today = Raise e →
     predict_inventory_simple (Some model) (Some db) today request
     = Raise (HTTPException 500 (FString "Prediction failed: " e))).
Proof.
  split.
  - unfold Simple.predict_inventory_simple.
    destruct xgboost_model as [m|]; [|left; split; [reflexivity|left; reflexivity]].
    destruct db_loader as [d|]; [|left; split; [reflexivity|right; reflexivity]].
    match goal with |- context [try_except ?body _] =>
      destruct body as [resp|err] end; cbn [try_except]; [exact I|].
    right. exists err. reflexivity.
  - intros Hdb. unfold Simple.predict_inventory_simple. rewrite Hdb.
    reflexivity.
Qed.


End WithCalendar.

Lemma simple_router_statuses_witness :
  match Simple.predict_inventory_simple sample_dayofweek sample_month
          sample_day None (Some empty_db) 739654
          {| sku_id := "1"; lookahead_days := 7 |} with
  | Ok _ => True
  | Raise err =>
      (err = HTTPException 503 (Text "Model not available")
       ∧ ((None : option Model) = None ∨ Some empty_db = None))
      ∨ ∃ cause, err = HTTPException 500 (FString "Prediction failed: " cause)
  end
  ∧ Simple.predict_inventory_simple sample_dayofweek sample_month sample_day
      (Some constant_model) (Some failing_db) 739654
      {| sku_id := "1"; lookahead_days := 7 |}
    = Raise (HTTPException 500
               (FString "Prediction failed: "
                  (PythonError "connection refused"))).
Proof.
  destruct (simple_router_statuses sample_dayofweek sample_month sample_day
              None (Some empty_db) constant_model
              failing_db 739654 {| sku_id := "1"; lookahead_days := 7 |}
              (PythonError "connection refused")) as [H1 H2].
  split; [exact H1|]. apply H2. reflexivity.
Defined.

Lemma np_mean_nonneg (l : list Q) :
  Forall (fun d => 0 <= d)%Q l → (0 <= np_mean l)%Q.
Proof.
  intros Hl. unfold np_mean, Qdiv. apply Qmult_le_0_compat.
  - apply (AdvisorFacts.fold_left_Qplus_ge l 0%Q Hl).
  - apply Qinv_le_0_compat. rewrite <- (Zle_Qle 0). lia.
Qed.

(** Every forecast day carries one and the same prediction, because the
    model is asked about the same feature row each day; the value is never
    negative when the model answers, and when the fallback is taken it is
    not negative as long as no recorded usage is. *)
Theorem forecast_loop_repeats_one_value (model : Model)
    (latest_features : FeatureRow) (data : list UsageRecord) (today H : Z) :
  Forall (fun r => ∀ q, rec_qty_used r = Some q → (0 <= q)%Q) data →
  ∃ v : Q,
    v = predict_day model latest_features data
    ∧ (0 <= v)%Q
    ∧ forecast_loop model latest_features data today H
      = map (fun i : nat =>
               {| date := today + (Z.of_nat i + 1);
                  predicted := Some v;
                  actual := None |})
            (seq 0 (Z.to_nat H)).
Proof.
  intros Hdata. exists (predict_day model latest_features data).
  split; [reflexivity|]. split; [|reflexivity].
  unfold predict_day. destruct (model latest_features) as [pred_value|err].
  - apply EnsembleProofs.py_max0_nonneg.
  - unfold trailing_average. apply np_mean_nonneg.
    unfold tail_n. apply Forall_drop. apply Forall_fmap.
    eapply Forall_impl; [exact Hdata|].
    intros r Hr. simpl in Hr |- *. unfold fillna.
    destruct (rec_qty_used r) as [q|] eqn:Eq; simpl;
      [apply (Hr q); reflexivity|].
    apply Qle_refl.
Qed.

Lemma forecast_loop_repeats_one_value_witness :
  ∃ v : Q,
    v = predict_day failing_model (latest_features_of sample_history)
          sample_history
    ∧ (0 <= v)%Q
    ∧ forecast_loop failing_model (latest_features_of sample_history)
        sample_history 739654 3
      = map (fun i : nat =>
               {| date := 739654 + (Z.of_nat i + 1);
                  predicted := Some v;
                  actual := None |})
            (seq 0 (Z.to_nat 3)).
Proof.
  apply (forecast_loop_repeats_one_value failing_model
           (latest_features_of sample_history) sample_history 739654 3).
  repeat constructor; simpl; intros q Hq; injection Hq as <-; discriminate.
Defined.

(** *** Lag and rolling features *)

Lemma shift_lookup (k : nat) (series : list (option Q)) (i : nat) :
  (i < length series)%nat →
  shift k series !! i
  = if decide (i < k)%nat then Some None else series !! (i - k)%nat.
Proof.
  intros Hi. unfold shift. rewrite lookup_take_lt by exact Hi.
  destruct (decide (i < k)%nat) as [Hlt|Hge].
  - rewrite lookup_app_l by (rewrite length_replicate; exact Hlt).
    apply lookup_replicate_2. exact Hlt.
  - rewrite lookup_app_r by (rewrite length_replicate; lia).
    rewrite length_replicate. reflexivity.
Qed.

Section Features.

Variables dt_dayofweek dt_month dt_day : Z → Z.

Local Abbreviation prepare_features :=
  (prepare_features dt_dayofweek dt_month dt_day).

Lemma prepare_features_lag (data : list UsageRecord) (i : nat)
    (f : FeatureRow) :
  prepare_features data !! i = Some f →
  (i < length data)%nat
  ∧ qty_used_lag_1 f
    = fillna 0 (mjoin (shift 1 (map rec_qty_used data) !! i))
  ∧ qty_used_lag_7 f
    = fillna 0 (mjoin (shift 7 (map rec_qty_used data) !! i))
  ∧ qty_used_lag_14 f
    = fillna 0 (mjoin (shift 14 (map rec_qty_used data) !! i))
  ∧ qty_used_roll_3d f
    = fillna 0 (mjoin (rolling_mean 3 (map rec_qty_used data) !! i))
  ∧ qty_used_roll_7d f
    = fillna 0 (mjoin (rolling_mean 7 (map rec_qty_used data) !! i)).
Proof.
  intros Hf.
  assert (Hi : (i < length data)%nat).
  { apply lookup_lt_Some in Hf.
    rewrite (prepare_features_length dt_dayofweek dt_month dt_day) in Hf.
    exact Hf. }
  split; [exact Hi|].
  unfold Simple.prepare_features in Hf. rewrite list_lookup_imap in Hf.
  destruct (data !! i) as [r|]; [|discriminate].
  injection Hf as <-. simpl. repeat split.
Qed.

Lemma lag_cell (data : list UsageRecord) (i k : nat) :
  (i < length data)%nat →
  fillna 0 (mjoin (shift k (map rec_qty_used data) !! i))
  = usage_rows_back data i k.
Proof.
  intros Hi. rewrite shift_lookup by (rewrite length_map; exact Hi).
  unfold usage_rows_back. destruct (decide (i < k)%nat); [reflexivity|].
  rewrite list_lookup_fmap. destruct (data !! (i - k)%nat); reflexivity.
Qed.

(** The lag features count rows, not calendar days: the lag-1, lag-7 and
    lag-14 features of the [i]-th row of the sorted history are the usage
    recorded 1, 7 and 14 rows earlier (0 when that usage is null), and 0
    in the first 1, 7 and 14 rows. *)
Theorem lag_features_are_rows_back (data : list UsageRecord) (i : nat)
    (f : FeatureRow) :
  prepare_features data !! i = Some f →
  qty_used_lag_1 f = usage_rows_back data i 1
  ∧ qty_used_lag_7 f = usage_rows_back data i 7
  ∧ qty_used_lag_14 f = usage_rows_back data i 14.
Proof.
  intros Hf.
  destruct (prepare_features_lag data i f Hf) as (Hi & H1 & H7 & H14 & _).
  rewrite H1, H7, H14, !lag_cell by exact Hi. repeat split.
Qed.

End Features.

Lemma lag_features_are_rows_back_witness :
  ∃ f : FeatureRow,
    Simple.prepare_features sample_dayofweek sample_month sample_day
      sample_history !! 1%nat = Some f
    ∧ qty_used_lag_1 f = usage_rows_back sample_history 1 1
    ∧ qty_used_lag_7 f = usage_rows_back sample_history 1 7
    ∧ qty_used_lag_14 f = usage_rows_back sample_history 1 14.
Proof.
  eexists. split; [reflexivity|].
  apply (lag_features_are_rows_back sample_dayofweek sample_month sample_day
           sample_history 1). reflexivity.
Defined.

End SimpleFacts.

(** ** The frame after [_add_derived_features] *)

Module LoaderFacts.
Import Loader LoaderReadings Samples LoaderProofs.

Lemma filled_null_free v series : null_free (filled v series).
Proof.
  unfold null_free, filled. apply Forall_fmap, Forall_forall.
  intros cell _. simpl. eexists. reflexivity.
Qed.

Lemma filled_id v series : null_free series → filled v series = series.
Proof.
  unfold null_free, filled. induction 1 as [|cell rest [x ->] _ IH];
    [reflexivity|].
  simpl. f_equal. exact IH.
Qed.

Lemma replicate_null_free n (v : Q) : null_free (replicate n (Some v)).
Proof.
  unfold null_free. apply Forall_replicate. eexists. reflexivity.
Qed.

(** One pass of the loop leaves its column present, null-free and of the
    right length. *)
Lemma ensure_default_column df col d :
  ∃ series,
    columns (ensure_default df (col, d)) !! col = Some series
    ∧ null_free series
    ∧ length series
      = match columns df !! col with
        | Some old => length old
        | None => nrows df
        end.
Proof.
  unfold ensure_default.
  destruct (columns df !! col) as [old|] eqn:E; simpl.
  - exists (filled d old). rewrite lookup_insert_eq.
    split; [reflexivity|]. split; [apply filled_null_free|].
    unfold filled. apply length_map.
  - exists (replicate (nrows df) (Some d)). rewrite lookup_insert_eq.
    split; [reflexivity|]. split; [apply replicate_null_free|].
    apply length_replicate.
Qed.

Lemma fold_ensure_default_column (l : list (string * Q)) col d : ∀ df,
  NoDup l.*1 → (col, d) ∈ l →
  ∃ series,
    columns (fold_left ensure_default l df) !! col = Some series
    ∧ null_free series
    ∧ length series
      = match columns df !! col with
        | Some old => length old
        | None => nrows df
        end.
Proof.
  induction l as [|[col' d'] l IH]; intros df Hnd Hin.
  - apply elem_of_nil in Hin. destruct Hin.
  - rewrite fmap_cons in Hnd. apply NoDup_cons in Hnd as [Hfresh Hnd].
    cbn [fold_left fst] in *.
    apply elem_of_cons in Hin as [Heq | Hin].
    + injection Heq as <- <-.
      rewrite fold_ensure_default_other by exact Hfresh.
      apply ensure_default_column.
    + assert (Hne : col' ≠ col).
      { intros ->. apply Hfresh.
        apply (list_elem_of_fmap_2 fst l (col, d)). exact Hin. }
      destruct (IH (ensure_default df (col', d')) Hnd Hin)
        as (series & Hs & Hnf & Hlen).
      exists series. split; [exact Hs|]. split; [exact Hnf|].
      rewrite Hlen, ensure_default_other, ensure_default_nrows by exact Hne.
      reflexivity.
Qed.

Lemma assign_scalar_well_formed col v df :
  well_formed df → well_formed (assign_scalar col v df).
Proof.
  intros Hwf c series Hc. unfold assign_scalar in Hc. simpl in *.
  apply lookup_insert_Some in Hc as [[_ <-] | [_ Hc]].
  - apply length_replicate.
  - exact (Hwf c series Hc).
Qed.

Lemma add_if_missing_well_formed col v df :
  well_formed df → well_formed (add_if_missing col v df).
Proof.
  intros Hwf. unfold add_if_missing.
  destruct (columns df !! col); [exact Hwf|].
  apply assign_scalar_well_formed. exact Hwf.
Qed.

Lemma rename_column_well_formed old new df :
  well_formed df → well_formed (rename_column old new df).
Proof.
  intros Hwf. unfold rename_column.
  destruct (columns df !! old) as [moved|] eqn:E; [|exact Hwf].
  intros c series Hc. simpl in *.
  apply lookup_insert_Some in Hc as [[_ <-] | [_ Hc]].
  - exact (Hwf old moved E).
  - apply lookup_delete_Some in Hc as [_ Hc]. exact (Hwf c series Hc).
Qed.

Lemma ensure_default_well_formed df entry :
  well_formed df → well_formed (ensure_default df entry).
Proof.
  intros Hwf. destruct entry as [col d]. unfold ensure_default.
  destruct (columns df !! col) as [old|] eqn:E.
  - intros c series Hc. unfold fillna_column in Hc. simpl in *.
    apply lookup_insert_Some in Hc as [[_ <-] | [_ Hc]].
    + rewrite length_map. exact (Hwf col old E).
    + exact (Hwf c series Hc).
  - apply assign_scalar_well_formed. exact Hwf.
Qed.

Lemma fold_ensure_default_well_formed (l : list (string * Q)) : ∀ df,
  well_formed df → well_formed (fold_left ensure_default l df).
Proof.
  induction l as [|e l IH]; intros df Hwf; [exact Hwf|].
  cbn [fold_left]. apply IH, ensure_default_well_formed, Hwf.
Qed.

(** "Ensure all required numeric columns exist": after the call every
    column of [numeric_defaults] is present and has no null cell, the
    number of rows is unchanged, and a frame with one cell per row and
    column stays one. *)
Theorem numeric_columns_complete (df : Frame) :
  well_formed df →
  nrows (_add_derived_features df) = nrows df
  ∧ well_formed (_add_derived_features df)
  ∧ ∀ col d, (col, d) ∈ numeric_defaults →
      ∃ series,
        columns (_add_derived_features df) !! col = Some series
        ∧ null_free series
        ∧ length series = nrows df.
Proof.
  intros Hwf.
  assert (Hrows : nrows (_add_derived_features df) = nrows df).
  { unfold _add_derived_features.
    rewrite fold_ensure_default_nrows, !rename_column_nrows,
      !add_if_missing_nrows. reflexivity. }
  assert (Hout : well_formed (_add_derived_features df)).
  { unfold _add_derived_features.
    apply fold_ensure_default_well_formed.
    do 2 apply rename_column_well_formed.
    do 2 apply add_if_missing_well_formed. exact Hwf. }
  split; [exact Hrows|]. split; [exact Hout|].
  intros col d Hin.
  destruct (fold_ensure_default_column numeric_defaults col d
              (rename_column "revenue_items_using" "revenue_items_using_ing"
                 (rename_column "units_sold_items_using"
                    "units_sold_items_using_ing"
                    (add_if_missing "lead_time_days" 2
                       (add_if_missing "is_holiday" 0 df))))
              numeric_defaults_NoDup Hin) as (series & Hs & Hnf & _).
  exists series. split; [exact Hs|]. split; [exact Hnf|].
  rewrite <- Hrows. exact (Hout col series Hs).
Qed.

Lemma sample_frame_well_formed : well_formed sample_frame.
Proof.
  intros col series Hc. unfold sample_frame in Hc. simpl in Hc.
  apply lookup_singleton_Some in Hc as [_ <-]. reflexivity.
Qed.

Lemma numeric_columns_complete_witness :
  nrows (_add_derived_features sample_frame) = nrows sample_frame
  ∧ well_formed (_add_derived_features sample_frame)
  ∧ ∀ col d, (col, d) ∈ numeric_defaults →
      ∃ series,
        columns (_add_derived_features sample_frame) !! col = Some series
        ∧ null_free series
        ∧ length series = nrows sample_frame.
Proof.
  apply (numeric_columns_complete sample_frame).
  exact sample_frame_well_formed.
Defined.






Lemma rename_column_old_gone old new df :
  old ≠ new → columns (rename_column old new df) !! old = None.
Proof.
  intros Hne. unfold rename_column.
  destruct (columns df !! old) as [moved|] eqn:E; [|exact E].
  simpl. rewrite lookup_insert_ne by congruence. apply lookup_delete_eq.
Qed.

Lemma rename_column_moves old new df moved :
  columns df !! old = Some moved →
  columns (rename_column old new df) !! new = Some moved.
Proof.
  intros E. unfold rename_column. rewrite E. simpl. apply lookup_insert_eq.
Qed.

Lemma fold_ensure_default_present (l : list (string * Q)) col d : ∀ df series,
  NoDup l.*1 → (col, d) ∈ l → columns df !! col = Some series →
  columns (fold_left ensure_default l df) !! col = Some (filled d series).
Proof.
  induction l as [|[col' d'] l IH]; intros df series Hnd Hin Hcol.
  - apply elem_of_nil in Hin. destruct Hin.
  - rewrite fmap_cons in Hnd. apply NoDup_cons in Hnd as [Hfresh Hnd].
    cbn [fold_left fst] in *.
    apply elem_of_cons in Hin as [Heq | Hin].
    + injection Heq as <- <-.
      rewrite fold_ensure_default_other by exact Hfresh.
      unfold ensure_default. rewrite Hcol. simpl. apply lookup_insert_eq.
    + assert (Hne : col' ≠ col).
      { intros ->. apply Hfresh.
        apply (list_elem_of_fmap_2 fst l (col, d)). exact Hin. }
      apply IH; [exact Hnd|exact Hin|].
      rewrite ensure_default_other by exact Hne. exact Hcol.
Qed.

Lemma not_a_numeric_default col :
  col ∈ [ "units_sold_items_using"; "revenue_items_using" ] →
  col ∉ numeric_defaults.*1.
Proof.
  intros Hin.
  apply elem_of_cons in Hin as [-> | Hin];
    [apply (bool_decide_unpack _); vm_compute; exact I|].
  apply elem_of_cons in Hin as [-> | Hin];
    [apply (bool_decide_unpack _); vm_compute; exact I|].
  apply elem_of_nil in Hin. destruct Hin.
Qed.

Lemma renamed_columns_gone (df : Frame) :
  columns (_add_derived_features df) !! "units_sold_items_using" = None
  ∧ columns (_add_derived_features df) !! "revenue_items_using" = None.
Proof.
  unfold _add_derived_features. split.
  - rewrite fold_ensure_default_other
      by (apply not_a_numeric_default; set_solver).
    rewrite rename_column_other by discriminate.
    apply rename_column_old_gone. discriminate.
  - rewrite fold_ensure_default_other
      by (apply not_a_numeric_default; set_solver).
    apply rename_column_old_gone. discriminate.
Qed.

(** The renaming: after the call the two old column names are gone, and
    the cells a frame had under an old name are found under the new one,
    nulls filled with 0. *)
Theorem renamed_columns_carry_their_data (df : Frame) :
  columns (_add_derived_features df) !! "units_sold_items_using" = None
  ∧ columns (_add_derived_features df) !! "revenue_items_using" = None
  ∧ (∀ series,
       columns df !! "units_sold_items_using" = Some series →
       columns (_add_derived_features df) !! "units_sold_items_using_ing"
       = Some (filled 0 series))
  ∧ (∀ series,
       columns df !! "revenue_items_using" = Some series →
       columns (_add_derived_features df) !! "revenue_items_using_ing"
       = Some (filled 0 series)).
Proof.
  unfold _add_derived_features. split; [|split; [|split]].
  - rewrite fold_ensure_default_other
      by (apply not_a_numeric_default; set_solver).
    rewrite rename_column_other by discriminate.
    apply rename_column_old_gone. discriminate.
  - rewrite fold_ensure_default_other
      by (apply not_a_numeric_default; set_solver).
    apply rename_column_old_gone. discriminate.
  - intros series Hs.
    apply fold_ensure_default_present.
    + exact numeric_defaults_NoDup.
    + unfold numeric_defaults.
      repeat (first [apply list_elem_of_here | apply list_elem_of_further]).
    + rewrite rename_column_other by discriminate.
      apply rename_column_moves.
      rewrite !add_if_missing_other by discriminate. exact Hs.
  - intros series Hs.
    apply fold_ensure_default_present.
    + exact numeric_defaults_NoDup.
    + unfold numeric_defaults.
      repeat (first [apply list_elem_of_here | apply list_elem_of_further]).
    + apply rename_column_moves.
      rewrite rename_column_other by discriminate.
      rewrite !add_if_missing_other by discriminate. exact Hs.
Qed.

Lemma add_if_missing_present col v df series :
  columns df !! col = Some series → add_if_missing col v df = df.
Proof. intros E. unfold add_if_missing. rewrite E. reflexivity. Qed.

Lemma rename_column_absent old new df :
  columns df !! old = None → rename_column old new df = df.
Proof. intros E. unfold rename_column. rewrite E. reflexivity. Qed.

Lemma ensure_default_settled df col d series :
  columns df !! col = Some series → null_free series →
  ensure_default df (col, d) = df.
Proof.
  intros E Hnf. unfold ensure_default. rewrite E. unfold fillna_column.
  change (map (fun cell => Some (default d cell)) series)
    with (filled d series).
  rewrite filled_id by exact Hnf. rewrite insert_id by exact E.
  destruct df; reflexivity.
Qed.

Lemma fold_ensure_default_settled (l : list (string * Q)) df :
  (∀ col d, (col, d) ∈ l →
     ∃ series, columns df !! col = Some series ∧ null_free series) →
  fold_left ensure_default l df = df.
Proof.
  induction l as [|[col d] l IH]; intros Hall; [reflexivity|].
  cbn [fold_left].
  destruct (Hall col d (list_elem_of_here _ _)) as (series & E & Hnf).
  rewrite (ensure_default_settled df col d series E Hnf).
  apply IH. intros col' d' Hin. apply (Hall col' d').
  apply list_elem_of_further, Hin.
Qed.

Lemma numeric_columns_settled (df : Frame) col d :
  (col, d) ∈ numeric_defaults →
  ∃ series,
    columns (_add_derived_features df) !! col = Some series
    ∧ null_free series.
Proof.
  intros Hin.
  destruct (fold_ensure_default_column numeric_defaults col d
              (rename_column "revenue_items_using" "revenue_items_using_ing"
                 (rename_column "units_sold_items_using"
                    "units_sold_items_using_ing"
                    (add_if_missing "lead_time_days" 2
                       (add_if_missing "is_holiday" 0 df))))
              numeric_defaults_NoDup Hin) as (series & Hs & Hnf & _).
  exists series. split; [exact Hs|exact Hnf].
Qed.

(** Deriving the features a second time changes nothing. *)
Theorem add_derived_features_idempotent (df : Frame) :
  _add_derived_features (_add_derived_features df) = _add_derived_features df.
Proof.
  set (out := _add_derived_features df).
  destruct (numeric_columns_settled df "is_holiday" 0) as (s1 & E1 & _).
  { unfold numeric_defaults.
    repeat (first [apply list_elem_of_here | apply list_elem_of_further]). }
  destruct (numeric_columns_settled df "lead_time_days" 2) as (s2 & E2 & _).
  { unfold numeric_defaults.
    repeat (first [apply list_elem_of_here | apply list_elem_of_further]). }
  destruct (renamed_columns_gone df) as [G1 G2].
  fold out in E1, E2, G1, G2.
  unfold _add_derived_features at 1.
  rewrite (add_if_missing_present "is_holiday" 0 out s1 E1).
  rewrite (add_if_missing_present "lead_time_days" 2 out s2 E2).
  rewrite (rename_column_absent "units_sold_items_using" _ out G1).
  rewrite (rename_column_absent "revenue_items_using" _ out G2).
  apply fold_ensure_default_settled. intros col d Hin.
  exact (numeric_columns_settled df col d Hin).
Qed.

End LoaderFacts.

(** ** [scripts/import_data.py] *)

Module ImportDataFacts.
Import ImportData.

Lemma range_from_concat {A} (size : nat) (rows : list A) :
  (0 < size)%nat →
  ∀ fuel i : nat,
    (length rows - i ≤ fuel)%nat →
    concat (map (fun j => take size (drop j rows))
              (range_from fuel i (length rows) size))
    = drop i rows.
Proof.
  intros Hsize. induction fuel as [|fuel IH]; intros i Hfuel;
    cbn [range_from].
  - simpl. rewrite drop_ge by lia. reflexivity.
  - destruct (decide (i < length rows)%nat) as [Hi|Hi].
    + cbn [map concat]. rewrite IH by lia.
      rewrite <- (drop_drop rows size i). apply take_drop.
    + simpl. rewrite drop_ge by lia. reflexivity.
Qed.

Lemma range_from_lookup (size n : nat) :
  ∀ (fuel i k j : nat),
    range_from fuel i n size !! k = Some j →
    j = (i + k * size)%nat ∧ (j < n)%nat.
Proof.
  induction fuel as [|fuel IH]; intros i k j Hj; cbn [range_from] in Hj.
  - discriminate.
  - destruct (decide (i < n)%nat) as [Hi|Hi]; [|discriminate].
    destruct k as [|k].
    + injection Hj as <-. split; [lia|exact Hi].
    + apply IH in Hj as [-> Hlt]. split; [lia|exact Hlt].
Qed.

(** The batched insert sends every row exactly once and in order, in
    batches that are never empty and never longer than the batch size, and
    every batch but the last one is full. *)
Theorem batches_cover_all_rows {A} (size : nat) (rows : list A) :
  (0 < size)%nat →
  concat (batches size rows) = rows
  ∧ Forall (fun batch => (0 < length batch ≤ size)%nat) (batches size rows)
  ∧ ∀ (k : nat) (batch : list A),
      batches size rows !! k = Some batch →
      (S k < length (batches size rows))%nat →
      length batch = size.
Proof.
  intros Hsize. split; [|split].
  - unfold batches, range_step.
    rewrite (range_from_concat size rows Hsize (length rows) 0) by lia.
    apply drop_0.
  - apply Forall_lookup. intros k batch Hb. unfold batches in Hb.
    rewrite list_lookup_fmap in Hb.
    destruct (range_step (length rows) size !! k) as [j|] eqn:Hj;
      [|discriminate].
    injection Hb as <-.
    apply range_from_lookup in Hj as [_ Hlt].
    rewrite length_take, length_drop. lia.
  - intros k batch Hb Hnext. unfold batches in *.
    rewrite length_map in Hnext.
    rewrite list_lookup_fmap in Hb.
    destruct (range_step (length rows) size !! k) as [j|] eqn:Hj;
      [|discriminate].
    injection Hb as <-.
    destruct (lookup_lt_is_Some_2 _ _ Hnext) as [j' Hj'].
    apply range_from_lookup in Hj as [-> _].
    apply range_from_lookup in Hj' as [-> Hlt].
    rewrite length_take, length_drop. lia.
Qed.

Lemma batches_cover_all_rows_witness :
  concat (batches 2 [10; 20; 30; 40; 50]) = [10; 20; 30; 40; 50]
  ∧ Forall (fun batch => (0 < length batch ≤ 2)%nat)
      (batches 2 [10; 20; 30; 40; 50])
  ∧ ∀ (k : nat) (batch : list Z),
      batches 2 [10; 20; 30; 40; 50] !! k = Some batch →
      (S k < length (batches 2 [10; 20; 30; 40; 50]))%nat →
      length batch = 2%nat.
Proof.
  apply (batches_cover_all_rows 2 [10; 20; 30; 40; 50]). lia.
Defined.

Lemma fold_note_restaurant (rows : list CsvRow) (r : Z) :
  ∀ acc : gmap Z string,
    fold_left note_restaurant rows acc !! r
    = match acc !! r with
      | Some name => Some name
      | None => restaurant_name <$> head (rows_of_restaurant r rows)
      end.
Proof.
  induction rows as [|row rows IH]; intros acc; cbn [fold_left].
  - destruct (acc !! r); reflexivity.
  - rewrite IH. unfold note_restaurant, rows_of_restaurant.
    destruct (decide (rid row = r)) as [E|E].
    + rewrite filter_cons_True by exact E. rewrite E.
      destruct (acc !! r) as [name|] eqn:Hacc.
      * rewrite Hacc. reflexivity.
      * rewrite lookup_insert_eq. reflexivity.
    + rewrite filter_cons_False by exact E.
      destruct (acc !! rid row) as [other|]; [reflexivity|].
      rewrite lookup_insert_ne by exact E. reflexivity.
Qed.

(** The restaurants table gets, for every restaurant id in the file, the
    name on the first row that carries the id; later rows with another name
    do not change it, and an id that is on no row gets no entry. *)
Theorem restaurants_first_name_wins (rows : list CsvRow) (r : Z) :
  collect_restaurants rows !! r
  = restaurant_name <$> head (rows_of_restaurant r rows).
Proof.
  unfold collect_restaurants. rewrite fold_note_restaurant.
  rewrite lookup_empty. reflexivity.
Qed.

Lemma ltb_le (a b : string) : String.ltb a b = true → String.le a b.
Proof.
  unfold String.le, String.leb, String.ltb.
  destruct (a ?= b)%string; intros H; try discriminate; exact I.
Qed.

Lemma not_ltb_le (a b : string) : String.ltb a b = false → String.le b a.
Proof.
  unfold String.le, String.leb, String.ltb.
  rewrite (String.compare_antisym a b).
  destruct (b ?= a)%string; simpl; intros H; try discriminate; exact I.
Qed.

Lemma earliest_le_start (rows : list CsvRow) : ∀ d : string,
  String.le (earliest d rows) d.
Proof.
  unfold earliest.
  induction rows as [|row rows IH]; intros d; cbn [fold_left].
  - reflexivity.
  - destruct (String.ltb (log_date row) d) eqn:E.
    + etrans; [apply IH|]. apply ltb_le. exact E.
    + apply IH.
Qed.

Lemma earliest_le_rows (rows : list CsvRow) : ∀ d : string,
  Forall (fun row => String.le (earliest d rows) (log_date row)) rows.
Proof.
  induction rows as [|row rows IH]; intros d; [constructor|].
  unfold earliest in *. cbn [fold_left].
  destruct (String.ltb (log_date row) d) eqn:E.
  - constructor; [apply (earliest_le_start rows (log_date row))|apply IH].
  - constructor; [|apply IH].
    etrans; [apply (earliest_le_start rows d)|].
    apply not_ltb_le. exact E.
Qed.

Lemma earliest_attained (rows : list CsvRow) : ∀ d : string,
  earliest d rows = d ∨ ∃ row, row ∈ rows ∧ earliest d rows = log_date row.
Proof.
  induction rows as [|row rows IH]; intros d; [left; reflexivity|].
  unfold earliest in *. cbn [fold_left].
  destruct (String.ltb (log_date row) d) eqn:E.
  - right. destruct (IH (log_date row)) as [-> | (row' & Hin & ->)].
    + exists row. split; [apply list_elem_of_here|reflexivity].
    + exists row'. split; [apply list_elem_of_further, Hin|reflexivity].
  - destruct (IH d) as [-> | (row' & Hin & ->)]; [left; reflexivity|].
    right. exists row'. split; [apply list_elem_of_further, Hin|reflexivity].
Qed.

Lemma fold_note_rest_ingredient (rows : list CsvRow) (key : Z * Z) :
  ∀ acc : gmap (Z * Z) RestIngredient,
    fold_left note_rest_ingredient rows acc !! key
    = match acc !! key with
      | Some info =>
          Some {| ri_lead_time_days := ri_lead_time_days info;
                  first_date :=
                    earliest (first_date info) (rows_of_pair key rows) |}
      | None =>
          match rows_of_pair key rows with
          | [] => None
          | first :: rest =>
              Some {| ri_lead_time_days := lead_time_days first;
                      first_date := earliest (log_date first) rest |}
          end
      end.
Proof.
  induction rows as [|row rows IH]; intros acc; cbn [fold_left].
  - unfold rows_of_pair. rewrite filter_nil.
    destruct (acc !! key) as [[lead d]|]; reflexivity.
  - rewrite IH. unfold note_rest_ingredient, rows_of_pair.
    destruct (decide ((rid row, iid row) = key)) as [E|E].
    + rewrite filter_cons_True by exact E. rewrite E.
      destruct (acc !! key) as [info|] eqn:Hacc.
      * unfold earliest. cbn [fold_left].
        destruct (String.ltb (log_date row) (first_date info)).
        -- rewrite lookup_insert_eq. reflexivity.
        -- rewrite Hacc. reflexivity.
      * rewrite lookup_insert_eq. reflexivity.
    + rewrite filter_cons_False by exact E.
      destruct (acc !! (rid row, iid row)) as [info'|].
      * destruct (String.ltb (log_date row) (first_date info')).
        -- rewrite lookup_insert_ne by exact E. reflexivity.
        -- reflexivity.
      * rewrite lookup_insert_ne by exact E. reflexivity.
Qed.

(** The restaurant_ingredients table: a pair that is on no row gets no
    entry; otherwise its lead time is the one of the first row of the pair,
    and its first-stocked date is the date of one of the rows of the pair
    and no later (as a string) than the date of any of them. *)
Theorem first_stocked_date_is_earliest (rows : list CsvRow) (key : Z * Z) :
  match collect_rest_ingredients rows !! key with
  | None => rows_of_pair key rows = []
  | Some info =>
      (∃ first rest,
         rows_of_pair key rows = first :: rest
         ∧ ri_lead_time_days info = lead_time_days first)
      ∧ (∃ row, row ∈ rows_of_pair key rows ∧ first_date info = log_date row)
      ∧ Forall (fun row => String.le (first_date info) (log_date row))
          (rows_of_pair key rows)
  end.
Proof.
  unfold collect_rest_ingredients. rewrite fold_note_rest_ingredient.
  rewrite lookup_empty.
  destruct (rows_of_pair key rows) as [|first rest]; [reflexivity|].
  cbn [ri_lead_time_days first_date]. split; [|split].
  - exists first, rest. split; reflexivity.
  - destruct (earliest_attained rest (log_date first))
      as [-> | (row & Hin & ->)].
    + exists first. split; [apply list_elem_of_here|reflexivity].
    + exists row. split; [apply list_elem_of_further, Hin|reflexivity].
  - constructor; [apply earliest_le_start|apply earliest_le_rows].
Qed.

End ImportDataFacts.

(** ** The response of [predict_inventory_simple] *)

Module SimpleResponse.
Import Simple Samples SimpleProofs.







Section LatestRow.

Variables dt_dayofweek dt_month dt_day : Z → Z.

Local Abbreviation prepare_features :=
  (Simple.prepare_features dt_dayofweek dt_month dt_day).



End LatestRow.

Lemma rolling_mean_lookup (w : nat) (series : list (option Q)) (i : nat) :
  (i < length series)%nat →
  rolling_mean w series !! i
  = Some (if decide (w ≤ S i)%nat
          then window_mean (take w (drop (S i - w) series))
          else None).
Proof.
  intros Hi. unfold rolling_mean. rewrite list_lookup_imap.
  destruct (lookup_lt_is_Some_2 series i Hi) as [x ->]. reflexivity.
Qed.

Section Rolling.

Variables dt_dayofweek dt_month dt_day : Z → Z.

Local Abbreviation prepare_features :=
  (Simple.prepare_features dt_dayofweek dt_month dt_day).

(** The rolling features are means over rows: the 3-row mean of row [i] is
    0 in the first two rows and whenever one of the three cells ending at
    row [i] is null, and [(a + b + c) / 3] otherwise; the 7-row mean is 0 in
    the first six rows. *)
Theorem rolling_features_are_row_means (data : list UsageRecord) (i : nat)
    (f : FeatureRow) :
  prepare_features data !! i = Some f →
  ((i < 2)%nat → qty_used_roll_3d f = 0%Q)
  ∧ ((i < 6)%nat → qty_used_roll_7d f = 0%Q)
  ∧ ((2 ≤ i)%nat →
     ∀ r0 r1 r2,
       data !! (i - 2)%nat = Some r0 → data !! (i - 1)%nat = Some r1 →
       data !! i = Some r2 →
       match rec_qty_used r0, rec_qty_used r1, rec_qty_used r2 with
       | Some a, Some b, Some c => (qty_used_roll_3d f == (a + b + c) / 3)%Q
       | _, _, _ => qty_used_roll_3d f = 0%Q
       end).
Proof.
  intros Hf.
  destruct (SimpleFacts.prepare_features_lag dt_dayofweek dt_month dt_day
              data i f Hf) as (Hi & _ & _ & _ & H3 & H7).
  assert (Hlen : (i < length (map rec_qty_used data))%nat)
    by (rewrite length_map; exact Hi).
  rewrite rolling_mean_lookup in H3, H7 by exact Hlen.
  split; [|split].
  - intros Hsmall. rewrite H3.
    destruct (decide (3 ≤ S i)%nat); [lia|reflexivity].
  - intros Hsmall. rewrite H7.
    destruct (decide (7 ≤ S i)%nat); [lia|reflexivity].
  - intros Hbig r0 r1 r2 Hr0 Hr1 Hr2. rewrite H3.
    destruct (decide (3 ≤ S i)%nat) as [_|]; [|lia].
    replace (S i - 3)%nat with (i - 2)%nat by lia.
    assert (Hq0 : map rec_qty_used data !! (i - 2)%nat
                  = Some (rec_qty_used r0))
      by (rewrite list_lookup_fmap, Hr0; reflexivity).
    assert (Hq1 : map rec_qty_used data !! S (i - 2)
                  = Some (rec_qty_used r1)).
    { replace (S (i - 2)) with (i - 1)%nat by lia.
      rewrite list_lookup_fmap, Hr1. reflexivity. }
    assert (Hq2 : map rec_qty_used data !! S (S (i - 2))
                  = Some (rec_qty_used r2)).
    { replace (S (S (i - 2))) with i by lia.
      rewrite list_lookup_fmap, Hr2. reflexivity. }
    rewrite (drop_S _ _ _ Hq0), (drop_S _ _ _ Hq1), (drop_S _ _ _ Hq2).
    cbn [take]. rewrite take_0.
    destruct (rec_qty_used r0) as [a|]; [|reflexivity].
    destruct (rec_qty_used r1) as [b|]; [|reflexivity].
    destruct (rec_qty_used r2) as [c|]; [|reflexivity].
    change (fillna 0 (mjoin (Some (window_mean [Some a; Some b; Some c]))))
      with (np_mean [a; b; c]).
    unfold np_mean, py_sum. cbn [fold_left length].
    change (inject_Z (Z.of_nat 3)) with 3%Q.
    unfold Qdiv. ring.
Qed.

End Rolling.

Lemma rolling_features_are_row_means_witness :
  ∃ f : FeatureRow,
    Simple.prepare_features sample_dayofweek sample_month sample_day
      three_days !! 2%nat = Some f
    ∧ (qty_used_roll_3d f == (3 + 5 + 7) / 3)%Q.
Proof.
  eexists. split; [reflexivity|].
  destruct (rolling_features_are_row_means sample_dayofweek sample_month
              sample_day three_days 2 _ eq_refl) as (_ & _ & H).
  exact (H ltac:(lia) (usage_record 739652 3) (usage_record 739653 5)
           (usage_record 739654 7) eq_refl eq_refl eq_refl).
Defined.

End SimpleResponse.

(** * The training filter and the archive prediction loop *)

Module TrainingFacts.

Import Training.

Lemma fillna0_row_no_null (row : list (option Q)) :
  existsb is_null (map (fun cell => Some (default 0%Q cell)) row) = false.
Proof.
  induction row as [|cell row IH]; [reflexivity|].
  simpl. exact IH.
Qed.

Lemma valid_mask_fillna0 (selected : Rows) :
  valid_mask (fillna0 selected) = replicate (length selected) true.
Proof.
  unfold valid_mask, fillna0.
  induction selected as [|row selected IH]; [reflexivity|].
  simpl. rewrite fillna0_row_no_null. simpl. f_equal. exact IH.
Qed.

Lemma select_rows_all_true {A} (rows : list A) :
  select_rows (replicate (length rows) true) rows = rows.
Proof.
  unfold select_rows.
  induction rows as [|row rows IH]; [reflexivity|].
  simpl. f_equal. exact IH.
Qed.

(** X24. The filter "remove rows with insufficient data" of
    [train_simple_xgboost] removes nothing: [prepare_features] has already
    replaced every null by 0, so the mask is true on every row and the model
    is trained on all rows, the zero-filled lag rows included. *)
Theorem valid_mask_keeps_every_row (selected : Rows) :
  valid_mask (fillna0 selected) = replicate (length selected) true
  ∧ training_features selected = fillna0 selected
  ∧ length (training_features selected) = length selected.
Proof.
  assert (E : training_features selected = fillna0 selected).
  { unfold training_features. cbv zeta.
    rewrite valid_mask_fillna0.
    replace (length selected) with (length (fillna0 selected))
      by (unfold fillna0; apply length_map).
    apply select_rows_all_true. }
  split; [apply valid_mask_fillna0|].
  split; [exact E|].
  rewrite E. unfold fillna0. apply length_map.
Qed.

(** Without the fill the mask does remove the rows the lags left null. *)
Example unfilled_rows_would_be_dropped :
  select_rows (valid_mask Samples.lagged_rows) Samples.lagged_rows = []
  ∧ length (training_features Samples.lagged_rows) = 3%nat.
Proof. split; reflexivity. Qed.

End TrainingFacts.

Module XGBoostRouterFacts.

Import XGBoostRouter.

Section Loop.

Context {Features : Type}.
Variable xgboost_model : Model Features.
Variable base_features : Features.
Variable today : Z.

Lemma prediction_loop_Raise (e : Exception) (i days : nat) :
  xgboost_model base_features = Raise e →
  prediction_loop xgboost_model base_features today i (S days) = Raise e.
Proof.
  intros Hm. simpl. rewrite Hm. reflexivity.
Qed.

Lemma prediction_loop_Ok (v : Q) (days : nat) :
  xgboost_model base_features = Ok v →
  ∀ i, ∃ points,
    prediction_loop xgboost_model base_features today i days = Ok points
    ∧ length points = days
    ∧ ∀ k p, points !! k = Some p →
        Ensemble.date p = today + (Z.of_nat (i + k) + 1)
        ∧ Ensemble.predicted p = Some (py_max0 v)
        ∧ Ensemble.actual p = None
        ∧ Ensemble.confidence_low p = Some (py_max0 v * (85 # 100))%Q
        ∧ Ensemble.confidence_high p = Some (py_max0 v * (115 # 100))%Q.
Proof.
  intros Hm. induction days as [|days IH]; intros i.
  - exists []. split; [reflexivity|]. split; [reflexivity|].
    intros k p Hk. rewrite lookup_nil in Hk. discriminate.
  - destruct (IH (S i)) as (rest & Hrest & Hlen & Hpts).
    eexists. split; [simpl; rewrite Hm; simpl; rewrite Hrest; reflexivity|].
    split; [simpl; f_equal; exact Hlen|].
    intros [|k] p Hk.
    + simpl in Hk. injection Hk as <-. simpl.
      replace (i + 0)%nat with i by lia. repeat split; reflexivity.
    + simpl in Hk. destruct (Hpts k p Hk) as (Hd & Hrestp).
      split; [|exact Hrestp].
      rewrite Hd. replace (i + S k)%nat with (S i + k)%nat by lia.
      reflexivity.
Qed.

(** X25. The prediction loop of the archive XGBoost router is all or
    nothing.  For a horizon of at least one day: if the model call raises,
    the loop raises that very exception (there is no fallback to a trailing
    average here, the request ends in the handler of the endpoint); if the
    model returns [v], the loop returns one point per day, day [k] dated
    [today + k + 1], all with the same non-negative value [max(0, v)] and
    the bands 0.85 and 1.15 times that value, so that
    [confidence_low <= predicted <= confidence_high]. *)
Theorem prediction_loop_all_or_nothing (lookahead_days : Z) :
  0 < lookahead_days →
  match xgboost_model base_features with
  | Raise e =>
      make_predictions xgboost_model base_features today lookahead_days
      = Raise e
  | Ok v =>
      ∃ points,
        make_predictions xgboost_model base_features today lookahead_days
        = Ok points
        ∧ Z.of_nat (length points) = lookahead_days
        ∧ (0 <= py_max0 v)%Q
        ∧ (py_max0 v * (85 # 100) <= py_max0 v)%Q
        ∧ (py_max0 v <= py_max0 v * (115 # 100))%Q
        ∧ ∀ k p, points !! k = Some p →
            Ensemble.date p = today + (Z.of_nat k + 1)
            ∧ Ensemble.predicted p = Some (py_max0 v)
            ∧ Ensemble.actual p = None
            ∧ Ensemble.confidence_low p = Some (py_max0 v * (85 # 100))%Q
            ∧ Ensemble.confidence_high p = Some (py_max0 v * (115 # 100))%Q
  end.
Proof.
  intros Hpos. unfold make_predictions.
  destruct (xgboost_model base_features) as [v|e] eqn:Hm.
  - destruct (prediction_loop_Ok v (Z.to_nat lookahead_days) Hm 0%nat)
      as (points & Hpoints & Hlen & Hpts).
    exists points. split; [exact Hpoints|].
    split; [rewrite Hlen; lia|].
    pose proof (EnsembleProofs.py_max0_nonneg v) as Hnn.
    split; [exact Hnn|].
    split; [lra|]. split; [lra|].
    intros k p Hk. exact (Hpts k p Hk).
  - destruct (Z.to_nat lookahead_days) as [|days] eqn:Hd; [lia|].
    apply prediction_loop_Raise. exact Hm.
Qed.

End Loop.

Lemma prediction_loop_all_or_nothing_witness :
  0 < 3
  ∧ make_predictions Samples.failing_xgboost tt 739654 3
    = Raise (PythonError "feature shape mismatch")
  ∧ ∃ points,
      make_predictions Samples.negative_xgboost tt 739654 3 = Ok points
      ∧ Z.of_nat (length points) = 3.
Proof.
  split; [lia|]. split.
  - exact (prediction_loop_all_or_nothing Samples.failing_xgboost tt 739654 3
             ltac:(lia)).
  - destruct (prediction_loop_all_or_nothing Samples.negative_xgboost tt
                739654 3 ltac:(lia)) as (points & Hp & Hl & _).
    exists points. split; [exact Hp | exact Hl].
Defined.

End XGBoostRouterFacts.
